(** * JNTUH results server: the catalog filter, the reference resolver and
      the result fetcher of [app.py] (Flask entry point) and [mcp.py]
      (FastMCP entry point), embedded as Rocq functions.

    Conventions of the embedding.
    - Text is [string] (a sequence of 8-bit characters); letter case is the
      ASCII one, which is what [str.lower], [str.upper] and the
      [case=False] flag of pandas do on ASCII text ([Text.is_ascii]), as
      the tokens of the catalog are.
    - A Python value that the code handles (a DataFrame cell, a JSON field
      of a request, a form parameter) is a [pyval]: [None], the float NaN
      that pandas stores for an empty CSV field, a [str] or an [int].
      Floats other than NaN are not modelled, so a numeric column is a
      column of [int] cells (what [read_csv] gives when no value of the
      column is missing).
    - The catalog is the list of its rows in file order; a row has the
      fourteen declared columns.  A boolean mask [df[mask]] is
      [List.filter]; the operations on a column are given by what they do
      on one cell of a column of dtype [object] (NaN for a cell that is
      not text under [.str], [False] under [==], [isin] and
      [contains(..., na=False)]).  On a column that is not of that dtype
      pandas refuses [.str] ([accepts_str]); [filter_refused] says when a
      search raises for it, [call_filter_results] is the call with its
      exception, and [filter_results] gives the rows returned.
    - The criteria of app.py are the JSON object of the request, a mapping
      from facet names to texts; those of mcp.py are its six optional
      keyword arguments.
    - The network, the clock and the PDF renderer are capabilities handed
      to the operations as a [World]; every call to one of them is logged
      in the list of [event]s the operation returns with its outcome. *)

From Stdlib Require Import Ascii String ZArith Lia Bool.
From stdpp Require Import gmap strings list pretty.

Local Open Scope Z_scope.
#[local] Arguments String.append !s1 s2 : simpl nomatch.

(** ** Text primitives (Python [str] methods the code uses) *)
Module Text.

Definition code (c : ascii) : N := N_of_ascii c.

(** ['A' <= c <= 'Z'] *)
Definition is_upper (c : ascii) : bool :=
  ((65 <=? code c) && (code c <=? 90))%N.

(** ['a' <= c <= 'z'] *)
Definition is_lower (c : ascii) : bool :=
  ((97 <=? code c) && (code c <=? 122))%N.

Definition lower_char (c : ascii) : ascii :=
  if is_upper c then ascii_of_N (code c + 32) else c.

Definition upper_char (c : ascii) : ascii :=
  if is_lower c then ascii_of_N (code c - 32) else c.


(** [s.lower()] on ASCII text: [A]-[Z] go to [a]-[z] and every other
    character stays.  Python also lower-cases letters outside ASCII; a
    statement that depends on the letter case of arbitrary text is made
    for texts that satisfy [is_ascii]. *)
Fixpoint lower (s : string) : string :=
  match s with
  | EmptyString => EmptyString
  | String c t => String (lower_char c) (lower t)
  end.

(** [s.upper()] on ASCII text, as [lower]. *)
Fixpoint upper (s : string) : string :=
  match s with
  | EmptyString => EmptyString
  | String c t => String (upper_char c) (upper t)
  end.

(** [hay.startswith(needle)] *)
Fixpoint starts_with (needle hay : string) : bool :=
  match needle, hay with
  | EmptyString, _ => true
  | String _ _, EmptyString => false
  | String a n, String b h => Ascii.eqb a b && starts_with n h
  end.

(** [needle in hay] *)
Fixpoint contains (needle hay : string) : bool :=
  starts_with needle hay ||
  match hay with
  | EmptyString => false
  | String _ t => contains needle t
  end.

(** [c in s] for a one-character [c] *)
Fixpoint has_char (c : ascii) (s : string) : bool :=
  match s with
  | EmptyString => false
  | String a t => Ascii.eqb a c || has_char c t
  end.

(** [s.split(sep)] for a one-character separator: never empty, an empty
    field between two adjacent separators. *)
Fixpoint split (sep : ascii) (s : string) : list string :=
  match s with
  | EmptyString => [EmptyString]
  | String c t =>
      if Ascii.eqb c sep then EmptyString :: split sep t
      else match split sep t with
           | h :: r => String c h :: r
           | [] => [String c EmptyString]
           end
  end.

(** [s.split(sep, 1)]: one element when [sep] does not occur, else the
    text before and the text after its first occurrence. *)
Fixpoint split1 (sep : ascii) (s : string) : list string :=
  match s with
  | EmptyString => [EmptyString]
  | String c t =>
      if Ascii.eqb c sep then [EmptyString; t]
      else match split1 sep t with
           | h :: r => String c h :: r
           | [] => [String c EmptyString]
           end
  end.

(** Two characters that are the same letter in possibly different case. *)
Definition same_letter (a b : ascii) : Prop :=
  a = b \/ (is_upper a = true /\ b = lower_char a)
        \/ (is_upper b = true /\ a = lower_char b).

(** Equality of two texts up to letter case, character by character. *)
Fixpoint caseless_eq (s t : string) : Prop :=
  match s, t with
  | EmptyString, EmptyString => True
  | String a s', String b t' => same_letter a b /\ caseless_eq s' t'
  | _, _ => False
  end.

End Text.

(** ** Python values and the pandas operations on one cell *)
Module Py.

Inductive pyval : Type :=
| PNone
| PNaN
| PStr (s : string)
| PInt (z : Z).

(** [bool(v)] *)
Definition truthy (v : pyval) : bool :=
  match v with
  | PNone => false
  | PNaN => true
  | PStr s => negb (String.eqb s "")
  | PInt z => negb (z =? 0)
  end.

(** [str(v)], also the element-wise [astype(str)] and the f-string
    rendering of a value. *)
Definition str (v : pyval) : string :=
  match v with
  | PNone => "None"
  | PNaN => "nan"
  | PStr s => s
  | PInt z => pretty z
  end.

(** [pd.notna(v)] *)
Definition notna (v : pyval) : bool :=
  match v with
  | PNone | PNaN => false
  | PStr _ | PInt _ => true
  end.

(** Element of [series.str.lower()]: NaN for a cell that is not text. *)
Definition str_lower (v : pyval) : pyval :=
  match v with
  | PStr s => PStr (Text.lower s)
  | _ => PNaN
  end.

(** Element of [series == x] for a text [x]. *)
Definition eq_text (v : pyval) (x : string) : bool :=
  match v with
  | PStr s => String.eqb s x
  | _ => false
  end.

(** Element of [series.isin(xs)] for a list of texts. *)
Definition isin (v : pyval) (xs : list string) : bool :=
  match v with
  | PStr s => existsb (String.eqb s) xs
  | _ => false
  end.

(** Element of [series.str.contains(pat, case=False, na=False)] where
    the regular expression [pat] is an alternation [p1|p2|...] of
    literal texts, given as the list of its alternatives. *)
Definition str_contains_nocase (alternatives : list string) (v : pyval) : bool :=
  match v with
  | PStr s =>
      existsb (fun p => Text.contains (Text.lower p) (Text.lower s))
              alternatives
  | _ => false
  end.


End Py.

Import Py.

(** ** The catalog ([results_df] / [app.config['RESULTS_DF']]) *)

(** One row of the CSV, with the declared columns under their own names. *)
Record Row : Type := {
  Title : pyval;
  URL : pyval;
  Exam_Date : pyval;
  degree : pyval;
  examCode : pyval;
  etype : pyval;
  type : pyval;
  result : pyval;
  grad : pyval;
  Regulation : pyval;
  Is_Supplementary : pyval;
  Exam_Type : pyval;
  Year : pyval;
  Semester : pyval
}.

(** [df.columns] *)
Definition columns : list string :=
  ["Title"; "URL"; "Exam_Date"; "degree"; "examCode"; "etype"; "type";
   "result"; "grad"; "Regulation"; "Is_Supplementary"; "Exam_Type"; "Year";
   "Semester"].

(** [row[column]]: [None] for a name that is not a column (a [KeyError]). *)
Definition cell (column : string) (r : Row) : option pyval :=
  if String.eqb column "Title" then Some (Title r)
  else if String.eqb column "URL" then Some (URL r)
  else if String.eqb column "Exam_Date" then Some (Exam_Date r)
  else if String.eqb column "degree" then Some (degree r)
  else if String.eqb column "examCode" then Some (examCode r)
  else if String.eqb column "etype" then Some (etype r)
  else if String.eqb column "type" then Some (type r)
  else if String.eqb column "result" then Some (result r)
  else if String.eqb column "grad" then Some (grad r)
  else if String.eqb column "Regulation" then Some (Regulation r)
  else if String.eqb column "Is_Supplementary" then Some (Is_Supplementary r)
  else if String.eqb column "Exam_Type" then Some (Exam_Type r)
  else if String.eqb column "Year" then Some (Year r)
  else if String.eqb column "Semester" then Some (Semester r)
  else None.

(** [series.unique()]: the distinct values in order of first appearance. *)
Fixpoint unique (seen : list string) (xs : list string) : list string :=
  match xs with
  | [] => []
  | x :: r =>
      if existsb (String.eqb x) seen then unique seen r
      else x :: unique (x :: seen) r
  end.

(** ** The outside world of the generate operation *)

(** What [requests.post] gives back: an exception of the transport, or a
    response with its HTTP status and body text. *)
Inductive http_result : Type :=
| ConnectionError
| Response (status_code : Z) (text : string).

Record World : Type := {
  (** [requests.post(result_url, data=params, headers=...)], the stored
      reference being the [Referer] header *)
  post : gmap string pyval -> string -> http_result;
  (** [datetime.now().strftime("%Y%m%d_%H%M%S")] *)
  now : string;
  (** [HTML(string=html).write_pdf(path)]: [None] when the renderer raises,
      else the size of the file written *)
  write_pdf : string -> string -> option Z;
  (** [PDF_DIR] of app.py, under the directory the program is installed in *)
  PDF_DIR : string
}.

Inductive event : Type :=
| Posted (params : gmap string pyval) (referer : string)
| Makedirs (dir : string)
| WritePdf (html path : string).

(** The outcomes of the two entry points, named after the error taxonomy. *)
Inductive outcome : Type :=
| InvalidRequest          (* 400, "examCode and htno are required" *)
| NotFoundCatalogEntry    (* "Invalid exam code" *)
| NotFoundRecord          (* "No records found for this roll number" *)
| TransportError          (* 500, "Failed to fetch results: ..." *)
| InternalError           (* 500, the message of any other exception *)
| Failed                  (* "Failed to generate PDF: ..." *)
| Uncaught                (* an exception that leaves the tool function *)
| Success (locator : string) (size : option Z).

(** [response.raise_for_status()] raises on a 4xx or 5xx status. *)
Definition raise_for_status (status_code : Z) : bool :=
  (400 <=? status_code) && (status_code <? 600).

(** The loop both entry points run over the reference string:
    [for param in query_string.split('&'): if '=' in param: ...]. *)
Definition add_param (params : gmap string pyval) (param : string)
  : gmap string pyval :=
  if Text.has_char "=" param then
    match Text.split1 "=" param with
    | [key; value] => <[key := PStr value]> params
    | _ => params
    end
  else params.

(** [df[df['examCode'].astype(str) == str(exam_code)]], the first line of
    both generate operations. *)
Definition result_rows (df : list Row) (exam_code : pyval) : list Row :=
  List.filter (fun r => String.eqb (Py.str (examCode r)) (Py.str exam_code)) df.

(** [url.split('?')[1]] *)
Definition query_string (url : string) : string :=
  default EmptyString (Text.split "?" url !! 1%nat).

(** [if '?' in url: ...] *)
Definition add_url_params (params : gmap string pyval) (url : string)
  : gmap string pyval :=
  if Text.has_char "?" url then
    foldl add_param params (Text.split "&" (query_string url))
  else params.

(** [series.str]: pandas gives the accessor on a column of dtype [object]
    and raises [AttributeError] on a numeric one.  As [read_csv] loads the
    catalog, a column is of dtype [object] when the catalog has no row or
    some cell of the column is text, and numeric (float64 or int64)
    otherwise; the dtype stays what it is when rows are masked away, so it
    is read on the catalog as loaded. *)
Definition accepts_str (column : Row -> pyval) (catalog : list Row) : bool :=
  match catalog with
  | [] => true
  | _ :: _ =>
      existsb (fun r => match column r with PStr _ => true | _ => false end)
        catalog
  end.

(** ** app.py *)
Module App.

(** ['k' in filters and filters['k']]: the value of a facet that is
    present and not empty. *)
Definition given (filters : gmap string string) (k : string)
  : option string :=
  match filters !! k with
  | Some v => if String.eqb v "" then None else Some v
  | None => None
  end.

Definition get_unique_values (df : list Row) (column : string)
  : list string :=
  if negb (existsb (String.eqb column) columns) then []
  else
    let values :=
      unique [] (map Py.str (List.filter notna (omap (cell column) df))) in
    List.filter
      (fun v => negb (existsb (String.eqb (Text.lower v)) ["unknown"; "nan"]))
      values.

(** The six [if] blocks of [filter_results], each a step from the frame
    it receives to the frame it hands on. *)
Definition by_degree_type (filters : gmap string string) (df : list Row)
  : list Row :=
  match given filters "degree_type" with
  | Some degree_type =>
      if String.eqb degree_type "BTech" then
        List.filter (fun r => isin (str_lower (degree r)) ["btech"; "b.e"]) df
      else if String.eqb degree_type "B.Pharmacy" then
        List.filter (fun r => eq_text (str_lower (degree r)) "bpharmacy") df
      else if String.eqb degree_type "MTech" then
        List.filter (fun r => eq_text (str_lower (degree r)) "mtech") df
      else if String.eqb degree_type "M.Pharmacy" then
        List.filter (fun r => eq_text (str_lower (degree r)) "mpharmacy") df
      else df
  | None => df
  end.

Definition by_year (filters : gmap string string) (df : list Row)
  : list Row :=
  match given filters "year" with
  | Some year =>
      List.filter (fun r => eq_text (str_lower (Year r)) (Text.lower year)) df
  | None => df
  end.

Definition by_semester (filters : gmap string string) (df : list Row)
  : list Row :=
  match given filters "semester" with
  | Some semester =>
      List.filter
        (fun r => eq_text (str_lower (Semester r)) (Text.lower semester)) df
  | None => df
  end.

Definition by_regulation (filters : gmap string string) (df : list Row)
  : list Row :=
  match given filters "regulation" with
  | Some regulation =>
      List.filter
        (fun r => eq_text (str_lower (Regulation r)) (Text.lower regulation))
        df
  | None => df
  end.

Definition by_exam_type (filters : gmap string string) (df : list Row)
  : list Row :=
  match given filters "exam_type" with
  | Some exam_type =>
      if String.eqb exam_type "Regular" then
        List.filter (fun r => eq_text (str_lower (Exam_Type r)) "regular") df
      else if String.eqb exam_type "Supplementary" then
        List.filter
          (fun r => str_contains_nocase ["supplementary"] (Exam_Type r)) df
      else df
  | None => df
  end.

Definition by_rc_rv (filters : gmap string string) (df : list Row)
  : list Row :=
  match given filters "rc_rv" with
  | Some rc_rv =>
      if String.eqb rc_rv "Yes" then
        List.filter
          (fun r => str_contains_nocase ["RC/RV"; "RCRV"] (Title r)) df
      else df
  | None => df
  end.

(** [filter_results] gives the rows of the frame the function returns.
    Where the function raises instead ([filter_refused] below) no row
    passes the step that raises, and this is the empty list. *)
Definition filter_results (filters : gmap string string) (df : list Row)
  : list Row :=
  let df := by_degree_type filters df in
  let df := by_year filters df in
  let df := by_semester filters df in
  let df := by_regulation filters df in
  let df := by_exam_type filters df in
  let df := by_rc_rv filters df in
  df.

(** [filter_results] raises [AttributeError]: a block that runs reads
    with [.str] a column on which pandas refuses the accessor. *)
Definition filter_refused (filters : gmap string string) (df : list Row)
  : bool :=
  match given filters "degree_type" with
  | Some degree_type =>
      (String.eqb degree_type "BTech" || String.eqb degree_type "B.Pharmacy"
       || String.eqb degree_type "MTech" || String.eqb degree_type "M.Pharmacy")
      && negb (accepts_str degree df)
  | None => false
  end
  || match given filters "year" with
     | Some _ => negb (accepts_str Year df)
     | None => false
     end
  || match given filters "semester" with
     | Some _ => negb (accepts_str Semester df)
     | None => false
     end
  || match given filters "regulation" with
     | Some _ => negb (accepts_str Regulation df)
     | None => false
     end
  || match given filters "exam_type" with
     | Some exam_type =>
         (String.eqb exam_type "Regular" || String.eqb exam_type "Supplementary")
         && negb (accepts_str Exam_Type df)
     | None => false
     end
  || match given filters "rc_rv" with
     | Some rc_rv => String.eqb rc_rv "Yes" && negb (accepts_str Title df)
     | None => false
     end.

(** The call [filter_results(filters)]: [None] when it raises. *)
Definition call_filter_results (filters : gmap string string)
    (df : list Row) : option (list Row) :=
  if filter_refused filters df then None
  else Some (filter_results filters df).

(** The parameter mapping built from "Extract parameters from the URL"
    to "Add the roll number". *)
Definition resolve_params (url : string) (htno : pyval)
  : gmap string pyval :=
  let params := (∅ : gmap string pyval) in
  let params := add_url_params params url in
  <["htno" := htno]> params.

Definition error_phrases : list string :=
  ["No Records Found"; "Invalid Hall Ticket Number"].

(** [exam_code] and [htno] are [data.get('examCode')] and
    [data.get('htno')]: [PNone] for a field the request does not have. *)
Definition mcp_generate_result (w : World) (df : list Row)
    (exam_code htno : pyval) : outcome * list event :=
  if negb (truthy exam_code) || negb (truthy htno) then (InvalidRequest, [])
  else
    match result_rows df exam_code with
    | [] => (NotFoundCatalogEntry, [])
    | row0 :: _ =>
        match URL row0 with
        | PStr url =>
            let params := resolve_params url htno in
            match post w params url with
            | ConnectionError => (TransportError, [Posted params url])
            | Response status_code text =>
                if raise_for_status status_code then
                  (TransportError, [Posted params url])
                else if existsb (fun p => Text.contains p text) error_phrases
                then (NotFoundRecord, [Posted params url])
                else
                  let pdf_filename :=
                    "result_" +:+ Py.str htno +:+ "_" +:+ Py.str exam_code
                      +:+ "_" +:+ now w +:+ ".pdf" in
                  let pdf_path := PDF_DIR w +:+ "/" +:+ pdf_filename in
                  match write_pdf w text pdf_path with
                  | None =>
                      (InternalError,
                       [Posted params url; WritePdf text pdf_path])
                  | Some size =>
                      (Success ("/static/pdfs/" +:+ pdf_filename) (Some size),
                       [Posted params url; WritePdf text pdf_path])
                  end
            end
        | _ => (InternalError, [])   (* ['?' in url] raises a TypeError *)
        end
    end.

End App.

(** ** mcp.py *)
Module Mcp.

(** [if x:] for an [Optional[str]] argument. *)
Definition given (x : option string) : option string :=
  match x with
  | Some v => if String.eqb v "" then None else Some v
  | None => None
  end.

(** The six [if] blocks of [filter_results]. *)
Definition by_degree_type (degree_type : option string)
    (filtered_df : list Row) : list Row :=
  match given degree_type with
  | Some degree_type =>
      List.filter (fun r => eq_text (degree r) (Text.lower degree_type))
        filtered_df
  | None => filtered_df
  end.

Definition by_year (year : option string) (filtered_df : list Row)
  : list Row :=
  match given year with
  | Some year => List.filter (fun r => eq_text (Year r) year) filtered_df
  | None => filtered_df
  end.

Definition by_semester (semester : option string) (filtered_df : list Row)
  : list Row :=
  match given semester with
  | Some semester =>
      List.filter (fun r => eq_text (Semester r) semester) filtered_df
  | None => filtered_df
  end.

Definition by_regulation (regulation : option string)
    (filtered_df : list Row) : list Row :=
  match given regulation with
  | Some regulation =>
      List.filter (fun r => eq_text (Regulation r) (Text.upper regulation))
        filtered_df
  | None => filtered_df
  end.

Definition by_exam_type (exam_type : option string) (filtered_df : list Row)
  : list Row :=
  match given exam_type with
  | Some exam_type =>
      if String.eqb exam_type "Regular" then
        List.filter (fun r => eq_text (Exam_Type r) "Regular") filtered_df
      else if String.eqb exam_type "Supplementary" then
        List.filter
          (fun r => str_contains_nocase ["supplementary"] (Exam_Type r))
          filtered_df
      else filtered_df
  | None => filtered_df
  end.

Definition by_rc_rv (is_rc_rv : option string) (filtered_df : list Row)
  : list Row :=
  match given is_rc_rv with
  | Some is_rc_rv =>
      if String.eqb is_rc_rv "Yes" then
        List.filter
          (fun r => str_contains_nocase ["RC/RV"; "RCRV"] (Title r))
          filtered_df
      else if String.eqb is_rc_rv "No" then
        List.filter
          (fun r => negb (str_contains_nocase ["RC/RV"; "RCRV"] (Title r)))
          filtered_df
      else filtered_df
  | None => filtered_df
  end.

(** [filter_results] gives the rows of the list the tool returns; where
    the tool raises instead, see [filter_refused] below. *)
Definition filter_results
    (degree_type year semester regulation exam_type is_rc_rv : option string)
    (results_df : list Row) : list Row :=
  let filtered_df := results_df in
  let filtered_df := by_degree_type degree_type filtered_df in
  let filtered_df := by_year year filtered_df in
  let filtered_df := by_semester semester filtered_df in
  let filtered_df := by_regulation regulation filtered_df in
  let filtered_df := by_exam_type exam_type filtered_df in
  let filtered_df := by_rc_rv is_rc_rv filtered_df in
  filtered_df.

(** [filter_results] raises [AttributeError]: [.str.contains] is asked of
    a column on which pandas refuses the accessor (the comparisons with
    [==] never raise). *)
Definition filter_refused (exam_type is_rc_rv : option string)
    (results_df : list Row) : bool :=
  match given exam_type with
  | Some exam_type =>
      String.eqb exam_type "Supplementary"
      && negb (accepts_str Exam_Type results_df)
  | None => false
  end
  || match given is_rc_rv with
     | Some is_rc_rv =>
         (String.eqb is_rc_rv "Yes" || String.eqb is_rc_rv "No")
         && negb (accepts_str Title results_df)
     | None => false
     end.

(** The call of the tool: [None] when it raises. *)
Definition call_filter_results
    (degree_type year semester regulation exam_type is_rc_rv : option string)
    (results_df : list Row) : option (list Row) :=
  if filter_refused exam_type is_rc_rv results_df then None
  else Some (filter_results degree_type year semester regulation exam_type
               is_rc_rv results_df).

(** [x if pd.notna(x) else 'null'] *)
Definition or_null (x : pyval) : pyval :=
  if notna x then x else PStr "null".

(** "Always include the basic parameters from the DataFrame". *)
Definition declared_params (row : Row) : gmap string pyval :=
  let params := (∅ : gmap string pyval) in
  let params := <["degree" := degree row]> params in
  let params := <["examCode" := examCode row]> params in
  let params := <["etype" := or_null (etype row)]> params in
  let params := <["type" := or_null (type row)]> params in
  let params := <["result" := or_null (result row)]> params in
  let params := <["grad" := or_null (grad row)]> params in
  params.

Definition resolve_params (row : Row) (url : string) (htno : pyval)
  : gmap string pyval :=
  let params := declared_params row in
  let params := add_url_params params url in
  <["htno" := htno]> params.

Definition error_indicators : list string :=
  ["No Records Found"; "Invalid Hall Ticket Number"; "Invalid HTNO";
   "Result Not Found"].

Definition get_result_pdf (w : World) (results_df : list Row)
    (exam_code htno : pyval) : outcome * list event :=
  match result_rows results_df exam_code with
  | [] => (NotFoundCatalogEntry, [])
  | row0 :: _ =>
      match URL row0 with
      | PStr url =>
          let params := resolve_params row0 url htno in
          match post w params url with
          | ConnectionError => (Failed, [Posted params url])
          | Response _ text =>
              if existsb (fun p => Text.contains p text) error_indicators
              then (NotFoundRecord, [Posted params url])
              else
                let pdf_dir := "static/pdfs" in
                let pdf_filename :=
                  "result_" +:+ Py.str htno +:+ "_" +:+ Py.str exam_code
                    +:+ "_" +:+ now w +:+ ".pdf" in
                let pdf_path := pdf_dir +:+ "/" +:+ pdf_filename in
                match write_pdf w text pdf_path with
                | None =>
                    (Failed,
                     [Posted params url; Makedirs pdf_dir;
                      WritePdf text pdf_path])
                | Some _ =>
                    (Success pdf_path None,
                     [Posted params url; Makedirs pdf_dir;
                      WritePdf text pdf_path])
                end
          end
      | _ => (Uncaught, [])   (* ['?' in url] raises a TypeError *)
      end
  end.

End Mcp.

(** ** Vocabulary of the statements *)
Module Notions.

(** The literal [phrase] occurs somewhere in [text]. *)
Definition occurs (phrase text : string) : Prop :=
  exists before after, text = before +:+ phrase +:+ after.

(** The same, without regard to letter case. *)
Definition occurs_nocase (phrase text : string) : Prop :=
  occurs (Text.lower phrase) (Text.lower text).

(** One component of the query segment, split on its first ['=']. *)
Definition pair_of (param : string) : option (string * string) :=
  match Text.split1 "=" param with
  | [key; value] => Some (key, value)
  | _ => None
  end.

(** The key=value components of the query segment of a reference, in
    the order they are written. *)
Definition url_pairs (url : string) : list (string * string) :=
  if Text.has_char "?" url
  then omap pair_of (Text.split "&" (query_string url))
  else [].

(** The value of the last component with key [k]. *)
Fixpoint last_value (k : string) (pairs : list (string * string))
  : option string :=
  match pairs with
  | [] => None
  | (k', v) :: rest =>
      match last_value k rest with
      | Some x => Some x
      | None => if String.eqb k' k then Some v else None
      end
  end.

(** A declared token with the placeholder for a logical null. *)
Definition token_or_null (v : pyval) : pyval :=
  match v with
  | PNone | PNaN => PStr "null"
  | _ => v
  end.

(** Stage one of the merge as mcp.py seeds it: [degree] and [examCode]
    as stored, the four optional tokens with the placeholder. *)
Definition declared_token (row : Row) (k : string) : option pyval :=
  if String.eqb k "degree" then Some (degree row)
  else if String.eqb k "examCode" then Some (examCode row)
  else if String.eqb k "etype" then Some (token_or_null (etype row))
  else if String.eqb k "type" then Some (token_or_null (type row))
  else if String.eqb k "result" then Some (token_or_null (result row))
  else if String.eqb k "grad" then Some (token_or_null (grad row))
  else None.

(** The facet keys of the criteria of app.py. *)
Definition facets : list string :=
  ["degree_type"; "year"; "semester"; "regulation"; "exam_type"; "rc_rv"].

(** A row passes a filtering step [F] when the step keeps it. *)
Definition passes (F : list Row -> list Row) (r : Row) : bool :=
  match F [r] with
  | [] => false
  | _ :: _ => true
  end.

(** A filtering step that is the selection of the rows passing one
    row-wise test, as a pandas boolean mask is. *)
Definition mask_like (F : list Row -> list Row) : Prop :=
  exists p, forall df, F df = List.filter p df.

End Notions.

(** ** The seeded catalog ([sample_data]) as pandas loads it *)
Module Sample.

Definition base_url : string :=
  "http://results.jntuh.ac.in/jsp/SearchResult.jsp".

Definition row_1866 : Row := {|
  Title := PStr "B.Tech IV Year I Semester (R18) Supplementary JUNE-2025 Examinations Results";
  URL := PStr (base_url +:+ "?degree=btech&examCode=1866&etype=r17&type=intgrade");
  Exam_Date := PStr "08-AUGUST-2025";
  degree := PStr "btech"; examCode := PInt 1866; etype := PStr "r17";
  type := PStr "intgrade"; result := PNaN; grad := PNaN;
  Regulation := PStr "R18"; Is_Supplementary := PStr "Yes";
  Exam_Type := PStr "Supplementary"; Year := PStr "IV"; Semester := PStr "I" |}.

Definition row_1867 : Row := {|
  Title := PStr "B.Tech IV Year I Semester (R16) Supplementary JUNE-2025 Examinations Results";
  URL := PStr (base_url +:+ "?degree=btech&examCode=1867&etype=r17&type=intgrade");
  Exam_Date := PStr "08-AUGUST-2025";
  degree := PStr "btech"; examCode := PInt 1867; etype := PStr "r17";
  type := PStr "intgrade"; result := PNaN; grad := PNaN;
  Regulation := PStr "R16"; Is_Supplementary := PStr "Yes";
  Exam_Type := PStr "Supplementary"; Year := PStr "IV"; Semester := PStr "I" |}.

Definition row_1868 : Row := {|
  Title := PStr "B.Tech IV Year I Semester (R15) Supplementary JUNE-2025 Examinations Results";
  URL := PStr (base_url +:+ "?degree=btech&examCode=1868");
  Exam_Date := PStr "08-AUGUST-2025";
  degree := PStr "btech"; examCode := PInt 1868; etype := PNaN;
  type := PNaN; result := PNaN; grad := PNaN;
  Regulation := PStr "R15"; Is_Supplementary := PStr "Yes";
  Exam_Type := PStr "Supplementary"; Year := PStr "IV"; Semester := PStr "I" |}.

Definition row_1869 : Row := {|
  Title := PStr "B.Tech IV Year I Semester (R18) (Minor degree) Supplementary JUNE-2025 Examinations Results";
  URL := PStr (base_url +:+ "?degree=btech&examCode=1869&etype=r17&type=intgrade");
  Exam_Date := PStr "08-AUGUST-2025";
  degree := PStr "btech"; examCode := PInt 1869; etype := PStr "r17";
  type := PStr "intgrade"; result := PNaN; grad := PNaN;
  Regulation := PStr "R18"; Is_Supplementary := PStr "Yes";
  Exam_Type := PStr "Supplementary"; Year := PStr "IV"; Semester := PStr "I" |}.

Definition row_1870 : Row := {|
  Title := PStr "B.Pharmacy IV Year I Semester (R18) Regular JAN-2025 Examinations Results";
  URL := PStr (base_url +:+ "?degree=bpharmacy&examCode=1870&etype=r18&type=intgrade");
  Exam_Date := PStr "15-JAN-2025";
  degree := PStr "bpharmacy"; examCode := PInt 1870; etype := PStr "r18";
  type := PStr "intgrade"; result := PNaN; grad := PNaN;
  Regulation := PStr "R18"; Is_Supplementary := PStr "No";
  Exam_Type := PStr "Regular"; Year := PStr "IV"; Semester := PStr "I" |}.

Definition row_1871 : Row := {|
  Title := PStr "RC/RV B.Tech III Year II Semester (R18) Supplementary Results";
  URL := PStr (base_url +:+ "?degree=btech&examCode=1871&etype=r18&result=gradercrv&type=rcrvintgrade");
  Exam_Date := PStr "20-MAR-2025";
  degree := PStr "btech"; examCode := PInt 1871; etype := PStr "r18";
  type := PStr "rcrvintgrade"; result := PStr "gradercrv"; grad := PNaN;
  Regulation := PStr "R18"; Is_Supplementary := PStr "Yes";
  Exam_Type := PStr "Supplementary"; Year := PStr "III"; Semester := PStr "II" |}.

Definition row_1872 : Row := {|
  Title := PStr "M.Tech II Year I Semester (R19) Regular Results";
  URL := PStr (base_url +:+ "?degree=mtech&examCode=1872&etype=r19&type=intgrade");
  Exam_Date := PStr "10-MAY-2025";
  degree := PStr "mtech"; examCode := PInt 1872; etype := PStr "r19";
  type := PStr "intgrade"; result := PNaN; grad := PNaN;
  Regulation := PStr "R19"; Is_Supplementary := PStr "No";
  Exam_Type := PStr "Regular"; Year := PStr "II"; Semester := PStr "I" |}.

Definition sample_data : list Row :=
  [row_1866; row_1867; row_1868; row_1869; row_1870; row_1871; row_1872].


(** A row whose degree field is empty in the CSV and whose reference has
    a second ['?']. *)
Definition row_odd : Row := {|
  Title := PStr "Special Examinations Results";
  URL := PStr (base_url +:+ "?examCode=1900?etype=r20&type=grade");
  Exam_Date := PStr "01-JAN-2025";
  degree := PNaN; examCode := PInt 1900; etype := PNaN;
  type := PNaN; result := PNaN; grad := PNaN;
  Regulation := PStr "R20"; Is_Supplementary := PStr "No";
  Exam_Type := PStr "Regular"; Year := PStr "I"; Semester := PStr "I" |}.

(** A downstream site that answers every request with status
    [status_code] and the page [text]. *)
Definition answering (status_code : Z) (text : string) : World := {|
  post := fun _ _ => Response status_code text;
  now := "20250808_101500";
  write_pdf := fun _ _ => Some 20480;
  PDF_DIR := "/srv/jntuh/static/pdfs" |}.

End Sample.

(** ** app.py: the other routes *)
Module AppRoutes.

(** [needle in v]: a [TypeError] ([None]) unless [v] is text. *)
Definition py_in (needle : string) (v : pyval) : option bool :=
  match v with
  | PStr s => Some (Text.contains needle s)
  | _ => None
  end.

(** ["Yes" if "RC/RV" in title or "RCRV" in title else "No"] *)
Definition rc_rv_label (title : pyval) : option string :=
  match py_in "RC/RV" title with
  | None => None
  | Some true => Some "Yes"
  | Some false =>
      match py_in "RCRV" title with
      | None => None
      | Some true => Some "Yes"
      | Some false => Some "No"
      end
  end.

(** One entry of ["results"] in the answer of the search action. *)
Record item : Type := {
  id : nat;
  title : pyval;
  exam_date : pyval;
  regulation : pyval;
  year : pyval;
  semester : pyval;
  exam_type : pyval;
  exam_code : pyval;
  is_rc_rv : string
}.

(** The list comprehension [[{...} for idx, result in enumerate(results)]],
    from index [idx] on; [None] when building an entry raises. *)
Fixpoint entries (idx : nat) (results : list Row) : option (list item) :=
  match results with
  | [] => Some []
  | result :: rest =>
      match rc_rv_label (Title result) with
      | None => None
      | Some label =>
          match entries (S idx) rest with
          | None => None
          | Some more =>
              Some ({| id := idx;
                       title := Title result;
                       exam_date := Exam_Date result;
                       regulation := Regulation result;
                       year := Year result;
                       semester := Semester result;
                       exam_type := Exam_Type result;
                       exam_code := examCode result;
                       is_rc_rv := label |} :: more)
          end
      end
  end.

(** The dictionary that [mcp_search_results] hands to [jsonify] (its
    ["count"] and ["results"]), or the error answer of its [except]
    branch; the serialisation itself is not modelled. *)
Inductive search_response : Type :=
| SearchSuccess (count : nat) (results : list item)   (* 200, "success" *)
| SearchError.                                         (* 500, "error" *)

Definition mcp_search_results (df : list Row) (filters : gmap string string)
  : search_response :=
  match App.call_filter_results filters df with
  | None => SearchError
  | Some filtered_df =>
      let results := filtered_df in
      match entries 0 results with
      | Some l => SearchSuccess (length results) l
      | None => SearchError
      end
  end.

(** ["available_filters"] of the state that [get_mcp_context] returns. *)
Record available_filters : Type := {
  degree_types : list string;
  years : list string;
  semesters : list string;
  regulations : list string;
  exam_types : list string;
  rc_rv_options : list string
}.

Definition get_mcp_context (df : list Row) : available_filters := {|
  degree_types := ["BTech"; "B.Pharmacy"; "MTech"; "M.Pharmacy"];
  years := App.get_unique_values df "Year";
  semesters := App.get_unique_values df "Semester";
  regulations := App.get_unique_values df "Regulation";
  exam_types := ["Regular"; "Supplementary"];
  rc_rv_options := ["Yes"; "No"]
|}.

(** What [serve_pdf] does: [abort(404)], or the call
    [send_file(pdf_path, ..., download_name=filename)]. *)
Inductive served : Type :=
| Abort404
| SendFile (pdf_path download_name : string).

(** [serve_pdf]; [path_exists] is [os.path.exists] on the file system of
    the moment. *)
Definition serve_pdf (w : World) (path_exists : string -> bool)
    (filename : string) : served :=
  let pdf_path := PDF_DIR w +:+ "/" +:+ filename in
  if negb (path_exists pdf_path) then Abort404
  else SendFile pdf_path filename.

(** [health_check]: the ['results_count'] field. *)
Definition health_check (df : list Row) : nat := length df.

End AppRoutes.

(** ** mcp.py: the other tools *)
Module McpTools.






(** [get_all_results] *)
Definition get_all_results (results_df : list Row) : list Row := results_df.

End McpTools.

(** ** Vocabulary of the further statements *)
Module MoreNotions.

(** [sep.join(parts)] *)
Fixpoint join (sep : ascii) (parts : list string) : string :=
  match parts with
  | [] => EmptyString
  | [p] => p
  | p :: rest => p +:+ String sep (join sep rest)
  end.

(** One pair written as [key=value]. *)
Definition component (kv : string * string) : string :=
  fst kv +:+ String "=" (snd kv).

(** The query segment that writes the given pairs. *)
Definition query_of (pairs : list (string * string)) : string :=
  join "&" (map component pairs).

(** The file name that the f-string
    [f"result_{htno}_{exam_code}_{timestamp}.pdf"] builds. *)
Definition artifact_name (htno exam_code : pyval) (timestamp : string)
  : string :=
  "result_" +:+ Py.str htno +:+ "_" +:+ Py.str exam_code +:+ "_"
    +:+ timestamp +:+ ".pdf".

(** A key that a query segment can carry: no ['='], ['&'] or ['?']. *)
Definition key_ok (k : string) : Prop :=
  Text.has_char "=" k = false /\ Text.has_char "&" k = false
  /\ Text.has_char "?" k = false.

(** A value that a query segment can carry: no ['&'] or ['?']. *)
Definition value_ok (v : string) : Prop :=
  Text.has_char "&" v = false /\ Text.has_char "?" v = false.



(** A cell that is text or empty, as in a column of tokens. *)
Definition text_or_null (v : pyval) : Prop :=
  match v with
  | PStr _ | PNaN | PNone => True
  | PInt _ => False
  end.

(** A row whose Year field is empty in the CSV. *)
Definition year_less_row : Row := {|
  Title := PStr "B.Tech Supplementary Results";
  URL := PStr (Sample.base_url +:+ "?degree=btech&examCode=1950");
  Exam_Date := PStr "01-FEB-2025";
  degree := PStr "btech"; examCode := PInt 1950; etype := PNaN;
  type := PNaN; result := PNaN; grad := PNaN;
  Regulation := PStr "R18"; Is_Supplementary := PStr "Yes";
  Exam_Type := PStr "Supplementary"; Year := PNaN; Semester := PStr "I" |}.

(** The world [w] at the clock value [timestamp]. *)
Definition at_time (timestamp : string) (w : World) : World := {|
  post := post w;
  now := timestamp;
  write_pdf := write_pdf w;
  PDF_DIR := PDF_DIR w
|}.

(** The entries that the search action answers on the seeded catalog
    for the exam type "Regular". *)
Definition regular_entries : list AppRoutes.item :=
  [ {| AppRoutes.id := 0;
       AppRoutes.title := Title Sample.row_1870;
       AppRoutes.exam_date := Exam_Date Sample.row_1870;
       AppRoutes.regulation := PStr "R18";
       AppRoutes.year := PStr "IV";
       AppRoutes.semester := PStr "I";
       AppRoutes.exam_type := PStr "Regular";
       AppRoutes.exam_code := PInt 1870;
       AppRoutes.is_rc_rv := "No" |};
    {| AppRoutes.id := 1;
       AppRoutes.title := Title Sample.row_1872;
       AppRoutes.exam_date := Exam_Date Sample.row_1872;
       AppRoutes.regulation := PStr "R19";
       AppRoutes.year := PStr "II";
       AppRoutes.semester := PStr "I";
       AppRoutes.exam_type := PStr "Regular";
       AppRoutes.exam_code := PInt 1872;
       AppRoutes.is_rc_rv := "No" |} ].

End MoreNotions.

(** ** The embedding run on the seeded catalog *)
Module Runs.
Import Sample.

Example split_components :
  Text.split "&" "a=1&&b=2&" = ["a=1"; ""; "b=2"; ""].
Proof. reflexivity. Qed.

Example split_first_equals :
  Text.split1 "=" "k=v=w" = ["k"; "v=w"] /\ Text.split1 "=" "kv" = ["kv"].
Proof. split; reflexivity. Qed.

Example lower_leaves_punctuation : Text.lower "B.E / R18 [@`{" = "b.e / r18 [@`{".
Proof. reflexivity. Qed.

Example years_on_offer :
  App.get_unique_values sample_data "Year" = ["IV"; "III"; "II"].
Proof. reflexivity. Qed.

Example exam_codes_on_offer :
  App.get_unique_values sample_data "examCode"
  = ["1866"; "1867"; "1868"; "1869"; "1870"; "1871"; "1872"].
Proof. reflexivity. Qed.

Example empty_column_on_offer : App.get_unique_values sample_data "grad" = [].
Proof. reflexivity. Qed.

Example search_app :
  map examCode
    (App.filter_results
       {["degree_type" := "BTech"; "year" := "iv"; "regulation" := "r18"]}
       sample_data)
  = [PInt 1866; PInt 1869].
Proof. reflexivity. Qed.

Example search_mcp :
  map examCode
    (Mcp.filter_results (Some "btech") (Some "IV") None (Some "r18")
       (Some "Supplementary") None sample_data)
  = [PInt 1866; PInt 1869].
Proof. reflexivity. Qed.

Example generate_mcp :
  Mcp.get_result_pdf (answering 200 "<html>marks</html>") sample_data
    (PStr "1868") (PStr "20B81A0501")
  = (Success "static/pdfs/result_20B81A0501_1868_20250808_101500.pdf" None,
     [Posted (Mcp.resolve_params row_1868
                (base_url +:+ "?degree=btech&examCode=1868")
                (PStr "20B81A0501"))
        (base_url +:+ "?degree=btech&examCode=1868");
      Makedirs "static/pdfs";
      WritePdf "<html>marks</html>"
        "static/pdfs/result_20B81A0501_1868_20250808_101500.pdf"]).
Proof. reflexivity. Qed.

Example generate_app :
  fst (App.mcp_generate_result (answering 200 "<html>marks</html>")
         sample_data (PInt 1871) (PStr "20B81A0501"))
  = Success "/static/pdfs/result_20B81A0501_1871_20250808_101500.pdf"
      (Some 20480).
Proof. reflexivity. Qed.

End Runs.

(** ** Text facts *)
Module TextFacts.
Import Text.

Lemma lower_char_not_upper a : is_upper (lower_char a) = false.
Proof. destruct a as [[] [] [] [] [] [] [] []]; reflexivity. Qed.

Lemma upper_lower_char a : is_upper a = true -> upper_char (lower_char a) = a.
Proof.
  destruct a as [[] [] [] [] [] [] [] []]; intros H;
    first [discriminate H | reflexivity].
Qed.

Lemma lower_char_fixed a : is_upper a = false -> lower_char a = a.
Proof. unfold lower_char. intros ->. reflexivity. Qed.

Lemma lower_char_idem a : lower_char (lower_char a) = lower_char a.
Proof. apply lower_char_fixed, lower_char_not_upper. Qed.

Lemma same_letter_iff a b : same_letter a b <-> lower_char a = lower_char b.
Proof.
  unfold same_letter. split.
  - intros [-> | [[_ ->] | [_ ->]]]; auto using lower_char_idem.
  - intros H.
    destruct (is_upper a) eqn:Ha, (is_upper b) eqn:Hb.
    + left. rewrite <- (upper_lower_char a Ha), <- (upper_lower_char b Hb).
      now rewrite H.
    + right. left. split; [reflexivity|].
      now rewrite H, (lower_char_fixed b Hb).
    + right. right. split; [reflexivity|].
      now rewrite <- H, (lower_char_fixed a Ha).
    + left. now rewrite <- (lower_char_fixed a Ha), <- (lower_char_fixed b Hb).
Qed.

Lemma lower_eq_caseless s : forall t, lower s = lower t <-> caseless_eq s t.
Proof.
  induction s as [|a s IH]; intros [|b t]; simpl; try (split; [discriminate|tauto]).
  - tauto.
  - rewrite same_letter_iff, <- IH. split.
    + intros H. injection H. auto.
    + intros [-> ->]. reflexivity.
Qed.

Lemma lower_idem s : lower (lower s) = lower s.
Proof. induction s; simpl; [|rewrite lower_char_idem, IHs]; reflexivity. Qed.

Lemma caseless_eq_refl s : caseless_eq s s.
Proof. apply lower_eq_caseless. reflexivity. Qed.

Lemma append_assoc (a b c : string) : (a +:+ b) +:+ c = a +:+ b +:+ c.
Proof. induction a; simpl; [|rewrite IHa]; reflexivity. Qed.

Lemma starts_with_spec n : forall h,
  starts_with n h = true <-> exists after, h = n +:+ after.
Proof.
  induction n as [|a n IH]; intros h; simpl.
  - split; eauto.
  - destruct h as [|b h].
    + split; [discriminate | intros [x Hx]; discriminate Hx].
    + rewrite andb_true_iff, IH, Ascii.eqb_eq. split.
      * intros [-> [x ->]]. eauto.
      * intros [x Hx]. injection Hx as -> ->. eauto.
Qed.

Lemma contains_spec n h : contains n h = true <-> Notions.occurs n h.
Proof.
  unfold Notions.occurs. induction h as [|c h IH]; simpl.
  - rewrite orb_false_r. rewrite starts_with_spec. split.
    + intros [x Hx]. exists EmptyString, x. exact Hx.
    + intros [[|? ?] [y Hy]]; [eauto | discriminate Hy].
  - destruct n as [|a n]; simpl.
    + split; [|reflexivity]. intros _. exists EmptyString. simpl. eauto.
    + rewrite orb_true_iff, IH, andb_true_iff, Ascii.eqb_eq, starts_with_spec.
      split.
      * intros [[-> [x ->]] | [p [q ->]]].
        -- exists EmptyString, x. reflexivity.
        -- exists (String c p), q. reflexivity.
      * intros [[|p0 p] [q Hq]]; simpl in Hq; injection Hq as -> ->.
        -- left. eauto.
        -- right. eauto.
Qed.

End TextFacts.

(** ** Splitting a reference string *)
Module SplitFacts.
Import Text.

Lemma split_no_sep sep s : has_char sep s = false -> split sep s = [s].
Proof.
  induction s as [|c s IH]; simpl; [reflexivity|].
  intros H. apply orb_false_elim in H as [Hc Hs].
  rewrite Hc, (IH Hs). reflexivity.
Qed.

Lemma split_at_first sep before rest :
  has_char sep before = false ->
  split sep (before +:+ String sep rest) = before :: split sep rest.
Proof.
  induction before as [|c s IH]; simpl.
  - intros _. rewrite Ascii.eqb_refl. reflexivity.
  - intros H. apply orb_false_elim in H as [Hc Hs].
    rewrite Hc, (IH Hs). reflexivity.
Qed.

Lemma split1_no_sep sep s : has_char sep s = false -> split1 sep s = [s].
Proof.
  induction s as [|c s IH]; simpl; [reflexivity|].
  intros H. apply orb_false_elim in H as [Hc Hs].
  rewrite Hc, (IH Hs). reflexivity.
Qed.

Lemma split1_at_first sep s :
  has_char sep s = true ->
  exists k v, split1 sep s = [k; v] /\ s = k +:+ String sep v
              /\ has_char sep k = false.
Proof.
  induction s as [|c s IH]; simpl; [discriminate|].
  destruct (Ascii.eqb c sep) eqn:Hc; simpl.
  - intros _. apply Ascii.eqb_eq in Hc as ->.
    exists EmptyString, s. auto.
  - intros H. destruct (IH H) as (k & v & -> & -> & Hk).
    exists (String c k), v. simpl. rewrite Hc, Hk. auto.
Qed.

Lemma has_char_app sep a b :
  has_char sep (a +:+ b) = has_char sep a || has_char sep b.
Proof.
  induction a as [|c a IH]; simpl; [reflexivity|].
  rewrite IH. apply orb_assoc.
Qed.

(** A component is a pair exactly when it holds a ['=']; the key is the
    text before the first one, the value all the text after it. *)
Lemma pair_of_spec param k v :
  Notions.pair_of param = Some (k, v) <->
  param = k +:+ String "=" v /\ has_char "=" k = false.
Proof.
  unfold Notions.pair_of. split.
  - destruct (has_char "=" param) eqn:H.
    + destruct (split1_at_first _ _ H) as (k' & v' & -> & -> & Hk).
      intros [= -> ->]. auto.
    + rewrite (split1_no_sep _ _ H). discriminate.
  - intros [-> Hk].
    assert (H : has_char "=" (k +:+ String "=" v) = true).
    { rewrite has_char_app. simpl. apply orb_true_r. }
    destruct (split1_at_first _ _ H) as (k' & v' & -> & E & Hk').
    f_equal. clear H.
    revert k' E Hk'. induction k as [|c k IH]; intros [|c' k'] E Hk'; simpl in *.
    + injection E as ->. reflexivity.
    + injection E as <- _. simpl in Hk'. discriminate.
    + injection E as -> _. simpl in Hk. discriminate.
    + injection E as -> E.
      apply orb_false_elim in Hk as [_ Hk], Hk' as [_ Hk'].
      specialize (IH Hk _ E Hk'). injection IH as -> ->. reflexivity.
Qed.

Lemma pair_of_guard param :
  has_char "=" param = false -> Notions.pair_of param = None.
Proof. intros H. unfold Notions.pair_of. now rewrite split1_no_sep. Qed.

(** With a single ['?'] the query segment is all the text after it. *)
Lemma query_string_single before q :
  has_char "?" before = false -> has_char "?" q = false ->
  query_string (before +:+ String "?" q) = q.
Proof.
  intros Hb Hq. unfold query_string.
  rewrite (split_at_first _ _ _ Hb), (split_no_sep _ _ Hq). reflexivity.
Qed.

(** With a second ['?'] the segment stops there. *)
Lemma query_string_second before q rest :
  has_char "?" before = false -> has_char "?" q = false ->
  query_string (before +:+ String "?" (q +:+ String "?" rest)) = q.
Proof.
  intros Hb Hq. unfold query_string.
  rewrite (split_at_first _ _ _ Hb), (split_at_first _ _ _ Hq). reflexivity.
Qed.

End SplitFacts.

(** ** The parameter mapping *)
Module ResolverFacts.

Lemma add_param_lookup (m : gmap string pyval) param k :
  add_param m param !! k =
    match Notions.pair_of param with
    | Some (k', v) => if String.eqb k' k then Some (PStr v) else m !! k
    | None => m !! k
    end.
Proof.
  unfold add_param. destruct (Text.has_char "=" param) eqn:H.
  - destruct (SplitFacts.split1_at_first _ _ H) as (k' & v & E & _ & _).
    unfold Notions.pair_of. rewrite E.
    destruct (String.eqb_spec k' k) as [->|Hne].
    + apply lookup_insert_eq.
    + now apply lookup_insert_ne.
  - now rewrite SplitFacts.pair_of_guard.
Qed.

Lemma fold_add_param_lookup params : forall (m : gmap string pyval) k,
  foldl add_param m params !! k =
    match Notions.last_value k (omap Notions.pair_of params) with
    | Some v => Some (PStr v)
    | None => m !! k
    end.
Proof.
  induction params as [|p params IH]; intros m k; [reflexivity|].
  change (foldl add_param m (p :: params))
    with (foldl add_param (add_param m p) params).
  change (omap Notions.pair_of (p :: params))
    with (match Notions.pair_of p with
          | Some y => y :: omap Notions.pair_of params
          | None => omap Notions.pair_of params
          end).
  rewrite IH, add_param_lookup.
  destruct (Notions.pair_of p) as [[k' v]|]; [|reflexivity].
  cbn [Notions.last_value].
  destruct (Notions.last_value k (omap Notions.pair_of params)); [reflexivity|].
  destruct (String.eqb k' k); reflexivity.
Qed.

(** Stage two of the merge: a key of the query segment takes the value
    of its last component, any other key keeps what it had. *)
Lemma add_url_params_lookup (m : gmap string pyval) url k :
  add_url_params m url !! k =
    match Notions.last_value k (Notions.url_pairs url) with
    | Some v => Some (PStr v)
    | None => m !! k
    end.
Proof.
  unfold add_url_params, Notions.url_pairs.
  destruct (Text.has_char "?" url); [apply fold_add_param_lookup|reflexivity].
Qed.

Lemma or_null_token v : Mcp.or_null v = Notions.token_or_null v.
Proof. destruct v; reflexivity. Qed.

(** Stage one as mcp.py seeds it. *)
Lemma declared_params_lookup row k :
  Mcp.declared_params row !! k = Notions.declared_token row k.
Proof.
  unfold Mcp.declared_params, Notions.declared_token.
  rewrite <- !or_null_token.
  repeat match goal with
  | |- context [String.eqb k ?c] =>
      destruct (String.eqb_spec k c) as [->|?];
      [ vm_compute; reflexivity | ]
  end.
  rewrite !lookup_insert_ne by congruence. apply lookup_empty.
Qed.

End ResolverFacts.

(** ** Filtering steps are row-wise *)
Module FilterFacts.
Import Notions.

Lemma mask_like_id : mask_like (fun df => df).
Proof.
  exists (fun _ => true). intros df.
  induction df as [|r df IH]; simpl; [|rewrite <- IH]; reflexivity.
Qed.

Lemma mask_like_filter p : mask_like (List.filter p).
Proof. exists p. reflexivity. Qed.

Lemma filter_twice (p q : Row -> bool) df :
  List.filter q (List.filter p df) = List.filter (fun r => p r && q r) df.
Proof.
  induction df as [|r df IH]; simpl; [reflexivity|].
  destruct (p r); simpl; [destruct (q r)|]; rewrite IH; reflexivity.
Qed.

Lemma mask_like_compose F G :
  mask_like F -> mask_like G -> mask_like (fun df => G (F df)).
Proof.
  intros [p Hp] [q Hq]. exists (fun r => p r && q r). intros df.
  rewrite Hq, Hp. apply filter_twice.
Qed.

(** A mask-like step keeps exactly the rows that pass it, in order. *)
Lemma mask_like_passes F df :
  mask_like F -> F df = List.filter (passes F) df.
Proof.
  intros [p Hp]. rewrite Hp. apply List.filter_ext. intros r.
  unfold passes. rewrite Hp. simpl. destruct (p r); reflexivity.
Qed.

Lemma mask_like_In F df r :
  mask_like F -> In r (F df) <-> In r df /\ passes F r = true.
Proof. intros H. rewrite (mask_like_passes F df H). apply List.filter_In. Qed.

Lemma passes_compose F G r :
  mask_like F -> mask_like G ->
  passes (fun df => G (F df)) r = passes F r && passes G r.
Proof.
  intros [p Hp] [q Hq]. unfold passes. rewrite !Hq, !Hp. simpl.
  destruct (p r); simpl; destruct (q r); reflexivity.
Qed.

Lemma passes_id r : passes (fun df => df) r = true.
Proof. reflexivity. Qed.

Lemma passes_filter p r : passes (List.filter p) r = p r.
Proof. unfold passes. simpl. destruct (p r); reflexivity. Qed.

Ltac step_cases :=
  repeat match goal with
  | |- context [match ?o with Some _ => _ | None => _ end] => destruct o
  | |- context [if ?b then _ else _] => destruct b
  end.

Ltac mask_like_step :=
  step_cases; first [apply mask_like_id | apply mask_like_filter].

(** *** app.py *)

Lemma app_degree_type_mask f : mask_like (App.by_degree_type f).
Proof. unfold App.by_degree_type. mask_like_step. Qed.
Lemma app_year_mask f : mask_like (App.by_year f).
Proof. unfold App.by_year. mask_like_step. Qed.
Lemma app_semester_mask f : mask_like (App.by_semester f).
Proof. unfold App.by_semester. mask_like_step. Qed.
Lemma app_regulation_mask f : mask_like (App.by_regulation f).
Proof. unfold App.by_regulation. mask_like_step. Qed.
Lemma app_exam_type_mask f : mask_like (App.by_exam_type f).
Proof. unfold App.by_exam_type. mask_like_step. Qed.
Lemma app_rc_rv_mask f : mask_like (App.by_rc_rv f).
Proof. unfold App.by_rc_rv. mask_like_step. Qed.

Create HintDb masks.

#[local] Hint Resolve app_degree_type_mask app_year_mask app_semester_mask app_regulation_mask
  app_exam_type_mask app_rc_rv_mask mask_like_compose : masks.

Lemma app_filter_results f : mask_like (App.filter_results f).
Proof. unfold App.filter_results. cbv zeta. auto 10 with masks. Qed.

(** A row is in the answer of app.py exactly when it is in the catalog
    and passes each of the six steps. *)
Lemma app_filter_results_In f df r :
  In r (App.filter_results f df) <->
  In r df /\
  (passes (App.by_degree_type f) r = true /\
   passes (App.by_year f) r = true /\
   passes (App.by_semester f) r = true /\
   passes (App.by_regulation f) r = true /\
   passes (App.by_exam_type f) r = true /\
   passes (App.by_rc_rv f) r = true).
Proof.
  rewrite (mask_like_In _ _ _ (app_filter_results f)).
  unfold App.filter_results. cbv zeta.
  rewrite !passes_compose, !andb_true_iff by auto 10 with masks.
  tauto.
Qed.

(** *** mcp.py *)

Lemma mcp_degree_type_mask x : mask_like (Mcp.by_degree_type x).
Proof. unfold Mcp.by_degree_type. mask_like_step. Qed.
Lemma mcp_year_mask x : mask_like (Mcp.by_year x).
Proof. unfold Mcp.by_year. mask_like_step. Qed.
Lemma mcp_semester_mask x : mask_like (Mcp.by_semester x).
Proof. unfold Mcp.by_semester. mask_like_step. Qed.
Lemma mcp_regulation_mask x : mask_like (Mcp.by_regulation x).
Proof. unfold Mcp.by_regulation. mask_like_step. Qed.
Lemma mcp_exam_type_mask x : mask_like (Mcp.by_exam_type x).
Proof. unfold Mcp.by_exam_type. mask_like_step. Qed.
Lemma mcp_rc_rv_mask x : mask_like (Mcp.by_rc_rv x).
Proof. unfold Mcp.by_rc_rv. mask_like_step. Qed.

#[local] Hint Resolve mcp_degree_type_mask mcp_year_mask mcp_semester_mask mcp_regulation_mask
  mcp_exam_type_mask mcp_rc_rv_mask : masks.

Lemma mcp_filter_results d y s g e c :
  mask_like (Mcp.filter_results d y s g e c).
Proof. unfold Mcp.filter_results. cbv zeta. auto 10 with masks. Qed.

Lemma mcp_filter_results_In d y s g e c df r :
  In r (Mcp.filter_results d y s g e c df) <->
  In r df /\
  (passes (Mcp.by_degree_type d) r = true /\
   passes (Mcp.by_year y) r = true /\
   passes (Mcp.by_semester s) r = true /\
   passes (Mcp.by_regulation g) r = true /\
   passes (Mcp.by_exam_type e) r = true /\
   passes (Mcp.by_rc_rv c) r = true).
Proof.
  rewrite (mask_like_In _ _ _ (mcp_filter_results d y s g e c)).
  unfold Mcp.filter_results. cbv zeta.
  rewrite !passes_compose, !andb_true_iff by auto 10 with masks.
  tauto.
Qed.

End FilterFacts.

(** ** What one cell test means *)
Module CellFacts.
Import Notions.

Lemma eq_text_iff c v : eq_text c v = true <-> c = PStr v.
Proof.
  destruct c; simpl; try (split; discriminate).
  rewrite String.eqb_eq. split; congruence.
Qed.

Lemma eq_text_lower c v :
  eq_text (str_lower c) (Text.lower v) = true <->
  exists s, c = PStr s /\ Text.caseless_eq s v.
Proof.
  destruct c as [| |s|z]; simpl;
    try (split; [discriminate | intros (s' & Hs & _); discriminate Hs]).
  rewrite String.eqb_eq, TextFacts.lower_eq_caseless. split; eauto.
  intros (s' & [= <-] & H). exact H.
Qed.

Lemma eq_text_token c tok :
  Text.lower tok = tok ->
  eq_text (str_lower c) tok = true <->
  exists s, c = PStr s /\ Text.caseless_eq s tok.
Proof. intros H. rewrite <- H at 1. apply eq_text_lower. Qed.


Lemma contains_one p c :
  str_contains_nocase [p] c = true <->
  exists s, c = PStr s /\ occurs_nocase p s.
Proof.
  unfold occurs_nocase.
  destruct c as [| |s|z]; simpl;
    try (split; [discriminate | intros (s' & Hs & _); discriminate Hs]).
  rewrite orb_false_r, TextFacts.contains_spec. split; eauto.
  intros (s' & [= <-] & H). exact H.
Qed.


End CellFacts.

(** ** One facet of the criteria of app.py at a time *)
Module FacetFacts.
Import Notions FilterFacts.

Lemma given_insert_eq (f : gmap string string) k v :
  App.given (<[k:=v]> f) k = if String.eqb v "" then None else Some v.
Proof. unfold App.given. now rewrite lookup_insert_eq. Qed.

Lemma given_insert_ne (f : gmap string string) k k' v :
  k <> k' -> App.given (<[k:=v]> f) k' = App.given f k'.
Proof. intros H. unfold App.given. now rewrite lookup_insert_ne. Qed.

Lemma given_delete_eq (f : gmap string string) k :
  App.given (delete k f) k = None.
Proof. unfold App.given. now rewrite lookup_delete_eq. Qed.

Lemma given_delete_ne (f : gmap string string) k k' :
  k <> k' -> App.given (delete k f) k' = App.given f k'.
Proof. intros H. unfold App.given. now rewrite lookup_delete_ne. Qed.

Lemma given_empty k : App.given ∅ k = None.
Proof. unfold App.given. now rewrite lookup_empty. Qed.

(** The criteria reach the steps only through [given]. *)
Lemma filter_results_given f g df :
  (forall k, In k facets -> App.given f k = App.given g k) ->
  App.filter_results f df = App.filter_results g df.
Proof.
  intros H. unfold App.filter_results, App.by_degree_type, App.by_year,
    App.by_semester, App.by_regulation, App.by_exam_type, App.by_rc_rv.
  rewrite !H by (simpl; tauto). reflexivity.
Qed.

Ltac expose_given :=
  unfold App.by_degree_type, App.by_year, App.by_semester,
    App.by_regulation, App.by_exam_type, App.by_rc_rv;
  rewrite ?given_insert_eq, ?given_delete_eq, ?given_empty;
  rewrite ?given_insert_ne, ?given_delete_ne by discriminate;
  rewrite ?passes_id.

(** Adding the facet [k] to criteria narrows the answer to the rows
    that a search on that facet alone keeps. *)
Lemma facet_In k v f df r :
  In k facets ->
  In r (App.filter_results (<[k:=v]> f) df) <->
  In r (App.filter_results (delete k f) df) /\
  passes (App.filter_results (<[k:=v]> ∅)) r = true.
Proof.
  intros Hk.
  assert (E : passes (App.filter_results (<[k:=v]> ∅)) r = true <->
              In r (App.filter_results (<[k:=v]> ∅) [r])).
  { rewrite (mask_like_In _ [r] r (app_filter_results _)). simpl. tauto. }
  rewrite E, !app_filter_results_In. clear E.
  simpl in Hk.
  destruct Hk as [<-|[<-|[<-|[<-|[<-|[<-|[]]]]]]]; expose_given;
    simpl; tauto.
Qed.

End FacetFacts.

(** ** The search operation *)
Module SearchClaims.
Import Notions Sample FilterFacts FacetFacts.

(** C4: a search whose criteria set no predicate returns the entire
    catalog, in catalog order.  For app.py the criteria are a mapping in
    which none of the six facet keys is present (other keys may be); for
    mcp.py all six arguments are [None]. *)
Theorem C4_search_without_predicates
    (df : list Row) (filters : gmap string string) :
  (forall k, In k facets -> filters !! k = None) ->
  App.filter_results filters df = df /\
  Mcp.filter_results None None None None None None df = df.
Proof.
  intros H. split; [|reflexivity].
  rewrite (filter_results_given filters ∅).
  - reflexivity.
  - intros k Hk. unfold App.given. now rewrite (H k Hk), lookup_empty.
Qed.

Lemma C4_witness :
  (forall k, In k facets ->
     ({["page" := "2"]} : gmap string string) !! k = None) /\
  App.filter_results {["page" := "2"]} sample_data = sample_data /\
  Mcp.filter_results None None None None None None sample_data = sample_data.
Proof.
  assert (H : forall k, In k facets ->
            ({["page" := "2"]} : gmap string string) !! k = None).
  { intros k Hk. simpl in Hk.
    destruct Hk as [<-|[<-|[<-|[<-|[<-|[<-|[]]]]]]]; reflexivity. }
  split; [exact H|].
  exact (C4_search_without_predicates sample_data {["page" := "2"]} H).
Defined.

(** C10: the empty string as the value of a facet imposes no
    constraint; the answer is the one of the criteria without that
    facet, in both entry points and for each of the six facets. *)
Theorem C10_empty_value_is_absent
    (df : list Row) (filters : gmap string string) (k : string)
    (d y s g e c : option string) :
  App.filter_results (<[k := ""]> filters) df
    = App.filter_results (delete k filters) df /\
  Mcp.filter_results (Some "") y s g e c df
    = Mcp.filter_results None y s g e c df /\
  Mcp.filter_results d (Some "") s g e c df
    = Mcp.filter_results d None s g e c df /\
  Mcp.filter_results d y (Some "") g e c df
    = Mcp.filter_results d y None g e c df /\
  Mcp.filter_results d y s (Some "") e c df
    = Mcp.filter_results d y s None e c df /\
  Mcp.filter_results d y s g (Some "") c df
    = Mcp.filter_results d y s g None c df /\
  Mcp.filter_results d y s g e (Some "") df
    = Mcp.filter_results d y s g e None df.
Proof.
  split; [|repeat split; reflexivity].
  apply filter_results_given. intros k' _.
  destruct (String.eqb_spec k k') as [<-|Hne].
  - now rewrite given_insert_eq, given_delete_eq.
  - now rewrite given_insert_ne, given_delete_ne.
Qed.

End SearchClaims.

(** ** What each predicate asks of a row *)
Module FacetMeaning.
Import Notions FilterFacts FacetFacts CellFacts.

Lemma alone_In k v r :
  passes (App.filter_results (<[k:=v]> ∅)) r = true <->
  In r (App.filter_results (<[k:=v]> ∅) [r]).
Proof.
  rewrite (mask_like_In _ [r] r (app_filter_results _)). simpl. tauto.
Qed.

Ltac alone :=
  rewrite alone_In, app_filter_results_In; expose_given;
  simpl; rewrite ?passes_id, ?passes_filter.

Lemma nonempty_eqb v : v <> "" -> String.eqb v "" = false.
Proof. apply String.eqb_neq. Qed.

(** *** app.py *)





Lemma app_year v r :
  v <> "" ->
  passes (App.filter_results (<["year" := v]> ∅)) r = true <->
  exists t, Year r = PStr t /\ Text.caseless_eq t v.
Proof.
  intros Hv. alone. rewrite (nonempty_eqb v Hv), passes_filter, eq_text_lower.
  tauto.
Qed.

Lemma app_semester v r :
  v <> "" ->
  passes (App.filter_results (<["semester" := v]> ∅)) r = true <->
  exists t, Semester r = PStr t /\ Text.caseless_eq t v.
Proof.
  intros Hv. alone. rewrite (nonempty_eqb v Hv), passes_filter, eq_text_lower.
  tauto.
Qed.

Lemma app_regulation v r :
  v <> "" ->
  passes (App.filter_results (<["regulation" := v]> ∅)) r = true <->
  exists t, Regulation r = PStr t /\ Text.caseless_eq t v.
Proof.
  intros Hv. alone. rewrite (nonempty_eqb v Hv), passes_filter, eq_text_lower.
  tauto.
Qed.

Lemma app_regular r :
  passes (App.filter_results (<["exam_type" := "Regular"]> ∅)) r = true <->
  exists t, Exam_Type r = PStr t /\ Text.caseless_eq t "regular".
Proof. alone. rewrite eq_text_token by reflexivity. tauto. Qed.

Lemma app_supplementary r :
  passes (App.filter_results (<["exam_type" := "Supplementary"]> ∅)) r = true
  <-> exists t, Exam_Type r = PStr t /\ occurs_nocase "supplementary" t.
Proof. alone. rewrite contains_one. tauto. Qed.


(** *** mcp.py *)

Ltac mcp_facet := rewrite !mcp_filter_results_In, ?passes_id; tauto.





Lemma mcp_exam_type_In d y s g e c df r :
  In r (Mcp.filter_results d y s g (Some e) c df) <->
  In r (Mcp.filter_results d y s g None c df) /\
  passes (Mcp.by_exam_type (Some e)) r = true.
Proof. mcp_facet. Qed.






Lemma mcp_regular r :
  passes (Mcp.by_exam_type (Some "Regular")) r = true <->
  Exam_Type r = PStr "Regular".
Proof.
  unfold Mcp.by_exam_type. simpl. now rewrite passes_filter, eq_text_iff.
Qed.

Lemma mcp_supplementary r :
  passes (Mcp.by_exam_type (Some "Supplementary")) r = true <->
  exists t, Exam_Type r = PStr t /\ occurs_nocase "supplementary" t.
Proof.
  unfold Mcp.by_exam_type. simpl. now rewrite passes_filter, contains_one.
Qed.



End FacetMeaning.

(** ** The predicates of the Filter Evaluator *)
Module PredicateClaims.
Import Notions Sample FacetFacts FacetMeaning.












End PredicateClaims.

(** ** The Facet Index *)
Module FacetIndexClaims.
Import Notions Sample.

Lemma existsb_eqb_In x (l : list string) :
  existsb (String.eqb x) l = true <-> In x l.
Proof.
  rewrite existsb_exists. split.
  - intros (y & Hy & E). apply String.eqb_eq in E as ->. exact Hy.
  - intros H. exists x. split; [exact H | apply String.eqb_refl].
Qed.

Lemma unique_In v xs : forall seen,
  In v (unique seen xs) <-> In v xs /\ ~ In v seen.
Proof.
  induction xs as [|x xs IH]; intros seen; simpl; [tauto|].
  destruct (existsb (String.eqb x) seen) eqn:E.
  - apply existsb_eqb_In in E. rewrite IH. split.
    + tauto.
    + intros [[->|H] Hn]; tauto.
  - assert (Hx : ~ In x seen).
    { intros H. apply existsb_eqb_In in H. congruence. }
    simpl. rewrite IH. simpl. split.
    + intros [->|[H Hn]]; tauto.
    + intros [[->|H] Hn]; [tauto|].
      destruct (String.eqb_spec x v) as [->|Hne]; tauto.
Qed.


(** [cell] knows exactly the declared columns. *)
Lemma cell_known column r :
  existsb (String.eqb column) columns = true -> is_Some (cell column r).
Proof.
  unfold cell, columns. simpl.
  repeat match goal with
  | |- context [String.eqb column ?c] => destruct (String.eqb column c)
  end; simpl; first [discriminate | eauto].
Qed.

Lemma cell_unknown column r :
  existsb (String.eqb column) columns = false -> cell column r = None.
Proof.
  unfold cell, columns. simpl.
  repeat match goal with
  | |- context [String.eqb column ?c] => destruct (String.eqb column c)
  end; simpl; first [discriminate | reflexivity].
Qed.

Lemma not_sentinel v :
  negb (existsb (String.eqb (Text.lower v)) ["unknown"; "nan"]) = true <->
  ~ Text.caseless_eq v "unknown" /\ ~ Text.caseless_eq v "nan".
Proof.
  rewrite negb_true_iff, <- not_true_iff_false, existsb_eqb_In.
  rewrite <- !TextFacts.lower_eq_caseless.
  change (Text.lower "unknown") with "unknown".
  change (Text.lower "nan") with "nan".
  cbn [In]. intuition congruence.
Qed.


End FacetIndexClaims.

(** ** The generate operation *)
Module GenerateClaims.
Import Notions Sample ResolverFacts.

Lemma result_rows_none df exam_code :
  (forall r, In r df -> Py.str (examCode r) <> Py.str exam_code) ->
  result_rows df exam_code = [].
Proof.
  unfold result_rows. induction df as [|r df IH]; intros H; [reflexivity|].
  simpl. destruct (String.eqb_spec (Py.str (examCode r)) (Py.str exam_code))
    as [E|_].
  - exfalso. apply (H r); [left; reflexivity | exact E].
  - apply IH. intros r' Hr'. apply H. right. exact Hr'.
Qed.

Lemma mcp_lookup row url htno k :
  Mcp.resolve_params row url htno !! k =
    if String.eqb k "htno" then Some htno
    else match last_value k (url_pairs url) with
         | Some v => Some (PStr v)
         | None => declared_token row k
         end.
Proof.
  unfold Mcp.resolve_params. cbv zeta.
  destruct (String.eqb_spec k "htno") as [->|Hne].
  - apply lookup_insert_eq.
  - rewrite lookup_insert_ne by congruence.
    now rewrite add_url_params_lookup, declared_params_lookup.
Qed.

Lemma app_lookup url htno k :
  App.resolve_params url htno !! k =
    if String.eqb k "htno" then Some htno
    else PStr <$> last_value k (url_pairs url).
Proof.
  unfold App.resolve_params. cbv zeta.
  destruct (String.eqb_spec k "htno") as [->|Hne].
  - apply lookup_insert_eq.
  - rewrite lookup_insert_ne by congruence.
    rewrite add_url_params_lookup, lookup_empty.
    destruct (last_value k (url_pairs url)); reflexivity.
Qed.

(** C1 (as amended): for an exam identifier present in the catalog
    (its first matching row holding a text reference) and any student
    id, mcp.py posts a three-stage merge: the declared columns [degree]
    and [examCode] as stored and [etype], [type], [result], [grad] with
    the text "null" in place of a logical null; then every key=value
    component of the query segment of the reference (the text between
    its first ['?'] and the next one or the end), a later component
    overwriting an earlier one and the seed; last the student id under
    [htno], overwriting.  So with [grad] null and no [grad] component
    the mapping has grad = "null", and a key of both a declared column
    and the reference takes the value of the reference.  app.py posts
    the last two stages only: it seeds nothing from the declared
    columns. *)
Theorem C1_resolver_merge
    (w : World) (df : list Row) (exam_code htno : pyval)
    (row0 : Row) (rest : list Row) (url : string) :
  result_rows df exam_code = row0 :: rest ->
  URL row0 = PStr url ->
  (exists tail,
     snd (Mcp.get_result_pdf w df exam_code htno)
     = Posted (Mcp.resolve_params row0 url htno) url :: tail) /\
  (forall k,
     Mcp.resolve_params row0 url htno !! k =
       if String.eqb k "htno" then Some htno
       else match last_value k (url_pairs url) with
            | Some v => Some (PStr v)
            | None => declared_token row0 k
            end) /\
  (notna (grad row0) = false -> last_value "grad" (url_pairs url) = None ->
   Mcp.resolve_params row0 url htno !! "grad" = Some (PStr "null")) /\
  (forall k v,
     k <> "htno" -> last_value k (url_pairs url) = Some v ->
     Mcp.resolve_params row0 url htno !! k = Some (PStr v)) /\
  (truthy exam_code = true -> truthy htno = true ->
   exists tail,
     snd (App.mcp_generate_result w df exam_code htno)
     = Posted (App.resolve_params url htno) url :: tail) /\
  (forall k,
     App.resolve_params url htno !! k =
       if String.eqb k "htno" then Some htno
       else PStr <$> last_value k (url_pairs url)).
Proof.
  intros Hrow Hurl. repeat split_and.
  - unfold Mcp.get_result_pdf. rewrite Hrow, Hurl. cbv zeta.
    destruct (post w _ url) as [|st text]; [eauto|].
    destruct (existsb _ Mcp.error_indicators); [eauto|].
    destruct (write_pdf w text _); simpl; eauto.
  - apply mcp_lookup.
  - intros Hna Hno. rewrite mcp_lookup, Hno.
    change (Some (token_or_null (grad row0)) = Some (PStr "null")).
    destruct (grad row0); first [reflexivity | discriminate Hna].
  - intros k v Hk Hv. rewrite mcp_lookup, Hv.
    apply String.eqb_neq in Hk. now rewrite Hk.
  - intros He Hh. unfold App.mcp_generate_result.
    rewrite He, Hh, Hrow, Hurl. simpl negb. cbv iota zeta.
    destruct (post w _ url) as [|st text]; [simpl; eauto|].
    destruct (raise_for_status st); [simpl; eauto|].
    destruct (existsb _ App.error_phrases); [simpl; eauto|].
    destruct (write_pdf w text _); simpl; eauto.
  - apply app_lookup.
Qed.

Lemma C1_witness :
  result_rows sample_data (PStr "1866") = [row_1866] /\
  URL row_1866 = PStr (base_url +:+ "?degree=btech&examCode=1866&etype=r17&type=intgrade") /\
  Mcp.resolve_params row_1866
    (base_url +:+ "?degree=btech&examCode=1866&etype=r17&type=intgrade")
    (PStr "20B81A0501") !! "grad" = Some (PStr "null").
Proof.
  assert (H1 : result_rows sample_data (PStr "1866") = [row_1866])
    by reflexivity.
  assert (H2 : URL row_1866 = PStr (base_url +:+ "?degree=btech&examCode=1866&etype=r17&type=intgrade"))
    by reflexivity.
  split; [exact H1|]. split; [exact H2|].
  destruct (C1_resolver_merge (answering 200 "<html>marks</html>")
              sample_data (PStr "1866") (PStr "20B81A0501") row_1866 [] _
              H1 H2) as (_ & _ & Hgrad & _).
  apply Hgrad; reflexivity.
Defined.

(** The claim fails on app.py: for the catalog row 1868, whose declared
    [grad] is null, the mapping it posts has no [grad] at all, only the
    two components of the reference and the student id.  On mcp.py the
    seeding is there, but a null [degree] is seeded as it is stored, not
    as "null", and the components behind a second ['?'] are not read. *)
Lemma C1_counterexample_app_seeds_nothing :
  (result_rows sample_data (PStr "1868") = [row_1868] /\
   grad row_1868 = PNaN /\
   snd (App.mcp_generate_result (answering 200 "No Records Found")
          sample_data (PStr "1868") (PStr "20B81A0501"))
   = [Posted (App.resolve_params (base_url +:+ "?degree=btech&examCode=1868")
                (PStr "20B81A0501"))
        (base_url +:+ "?degree=btech&examCode=1868")] /\
   App.resolve_params (base_url +:+ "?degree=btech&examCode=1868")
     (PStr "20B81A0501") !! "grad" = None /\
   map_to_list (App.resolve_params (base_url +:+ "?degree=btech&examCode=1868")
                  (PStr "20B81A0501"))
   ≡ₚ [("degree", PStr "btech"); ("examCode", PStr "1868");
       ("htno", PStr "20B81A0501")]) /\
  (degree row_odd = PNaN /\
   Mcp.resolve_params row_odd
     (base_url +:+ "?examCode=1900?etype=r20&type=grade") (PStr "20B81A0501")
     !! "degree" = Some PNaN /\
   Mcp.resolve_params row_odd
     (base_url +:+ "?examCode=1900?etype=r20&type=grade") (PStr "20B81A0501")
     !! "type" = Some (PStr "null")).
Proof.
  split.
  - split; [reflexivity|]. split; [reflexivity|]. split; [reflexivity|].
    split; [reflexivity|].
    vm_compute. apply perm_swap.
  - repeat split; reflexivity.
Qed.

(** C2 (as amended): for an exam identifier whose text matches no
    catalog row, and any student id, neither entry point makes a
    network call or creates an artifact.  mcp.py answers
    NotFoundCatalogEntry; so does app.py when the exam identifier and
    the student id are both non-empty, and it answers InvalidRequest,
    before it looks at the catalog, when one of them is empty or
    missing. *)
Theorem C2_unknown_exam_code
    (w : World) (df : list Row) (exam_code htno : pyval) :
  (forall r, In r df -> Py.str (examCode r) <> Py.str exam_code) ->
  Mcp.get_result_pdf w df exam_code htno = (NotFoundCatalogEntry, []) /\
  App.mcp_generate_result w df exam_code htno
  = (if truthy exam_code && truthy htno then NotFoundCatalogEntry
     else InvalidRequest, []).
Proof.
  intros H. apply result_rows_none in H.
  unfold Mcp.get_result_pdf, App.mcp_generate_result. rewrite H.
  destruct (truthy exam_code), (truthy htno); split; reflexivity.
Qed.

Lemma C2_witness :
  (forall r, In r sample_data ->
     Py.str (examCode r) <> Py.str (PStr "9999")) /\
  Mcp.get_result_pdf (answering 200 "<html>marks</html>") sample_data
    (PStr "9999") (PStr "20B81A0501") = (NotFoundCatalogEntry, []) /\
  App.mcp_generate_result (answering 200 "<html>marks</html>") sample_data
    (PStr "9999") (PStr "20B81A0501") = (NotFoundCatalogEntry, []).
Proof.
  assert (H : forall r, In r sample_data ->
              Py.str (examCode r) <> Py.str (PStr "9999")).
  { intros r Hr. simpl in Hr.
    destruct Hr as [<-|[<-|[<-|[<-|[<-|[<-|[<-|[]]]]]]]]; discriminate. }
  split; [exact H|].
  exact (C2_unknown_exam_code (answering 200 "<html>marks</html>")
           sample_data (PStr "9999") (PStr "20B81A0501") H).
Defined.

(** The claim fails on app.py for the empty student id: no row has the
    exam identifier, and the answer is InvalidRequest. *)
Lemma C2_counterexample_app_empty_student_id :
  result_rows sample_data (PStr "9999") = [] /\
  App.mcp_generate_result (answering 200 "<html>marks</html>") sample_data
    (PStr "9999") (PStr "") = (InvalidRequest, []).
Proof. split; reflexivity. Qed.

Lemma phrase_found phrase text (phrases : list string) :
  In phrase phrases -> occurs phrase text ->
  existsb (fun p => Text.contains p text) phrases = true.
Proof.
  intros Hin Hocc. apply existsb_exists. exists phrase.
  split; [exact Hin | now apply TextFacts.contains_spec].
Qed.

Lemma no_phrase_found text (phrases : list string) :
  existsb (fun p => Text.contains p text) phrases = false ->
  forall p, In p phrases -> ~ occurs p text.
Proof.
  intros H p Hin Hocc.
  rewrite (phrase_found p text phrases Hin Hocc) in H. discriminate.
Qed.

(** C3 (as amended): when the body of the downstream response contains
    "Invalid Hall Ticket Number" or "No Records Found", mcp.py (for any
    response) and app.py (for a response whose status is not 4xx or 5xx,
    which [raise_for_status] turns into a TransportError before the body
    is read) answer NotFoundRecord, having made the one network call and
    created no artifact.  An entry point answers Success only for a body
    containing none of its own not-found phrases (app.py: the two above;
    mcp.py: these, "Invalid HTNO" and "Result Not Found"), and that body
    is the one it has converted into the artifact. *)
Theorem C3_not_found_phrases
    (w : World) (df : list Row) (exam_code htno : pyval)
    (row0 : Row) (rest : list Row) (url : string)
    (status_code : Z) (text phrase : string) :
  result_rows df exam_code = row0 :: rest ->
  URL row0 = PStr url ->
  phrase = "Invalid Hall Ticket Number" \/ phrase = "No Records Found" ->
  occurs phrase text ->
  (post w (Mcp.resolve_params row0 url htno) url = Response status_code text ->
   Mcp.get_result_pdf w df exam_code htno
   = (NotFoundRecord, [Posted (Mcp.resolve_params row0 url htno) url])) /\
  (truthy exam_code = true -> truthy htno = true ->
   raise_for_status status_code = false ->
   post w (App.resolve_params url htno) url = Response status_code text ->
   App.mcp_generate_result w df exam_code htno
   = (NotFoundRecord, [Posted (App.resolve_params url htno) url])) /\
  (forall locator size,
     fst (Mcp.get_result_pdf w df exam_code htno) = Success locator size ->
     exists status body,
       post w (Mcp.resolve_params row0 url htno) url = Response status body /\
       (forall p, In p Mcp.error_indicators -> ~ occurs p body) /\
       In (WritePdf body locator)
          (snd (Mcp.get_result_pdf w df exam_code htno))) /\
  (forall locator size,
     fst (App.mcp_generate_result w df exam_code htno) = Success locator size ->
     exists status body path,
       post w (App.resolve_params url htno) url = Response status body /\
       raise_for_status status = false /\
       (forall p, In p App.error_phrases -> ~ occurs p body) /\
       In (WritePdf body path)
          (snd (App.mcp_generate_result w df exam_code htno))).
Proof.
  intros Hrow Hurl Hphrase Hocc. repeat split_and.
  - intros Hpost. unfold Mcp.get_result_pdf.
    rewrite Hrow, Hurl. cbv zeta. rewrite Hpost.
    rewrite (phrase_found phrase); [reflexivity| |exact Hocc].
    destruct Hphrase as [->| ->]; simpl; tauto.
  - intros He Hh Hst Hpost. unfold App.mcp_generate_result.
    rewrite He, Hh, Hrow, Hurl. cbn [negb orb]. cbv zeta.
    rewrite Hpost, Hst.
    rewrite (phrase_found phrase); [reflexivity| |exact Hocc].
    destruct Hphrase as [->| ->]; simpl; tauto.
  - intros locator size. unfold Mcp.get_result_pdf.
    rewrite Hrow, Hurl. cbv zeta.
    destruct (post w _ url) as [|st body]; [discriminate|].
    destruct (existsb _ Mcp.error_indicators) eqn:E; [discriminate|].
    destruct (write_pdf w body _); [|discriminate].
    cbn [fst snd]. intros [= <- _]. exists st, body.
    split; [reflexivity|]. split; [now apply no_phrase_found|].
    simpl. tauto.
  - intros locator size. unfold App.mcp_generate_result.
    rewrite Hrow, Hurl.
    destruct (negb (truthy exam_code) || negb (truthy htno));
      [discriminate|].
    cbv zeta.
    destruct (post w _ url) as [|st body]; [discriminate|].
    destruct (raise_for_status st) eqn:Hst; [discriminate|].
    destruct (existsb _ App.error_phrases) eqn:E; [discriminate|].
    destruct (write_pdf w body _) eqn:Hw; [|discriminate].
    cbn [fst snd]. intros _. exists st, body. eexists.
    split; [reflexivity|]. split; [exact Hst|].
    split; [now apply no_phrase_found|].
    right. left. reflexivity.
Qed.

Lemma C3_witness :
  result_rows sample_data (PStr "1866") = [row_1866] /\
  URL row_1866 = PStr (base_url +:+ "?degree=btech&examCode=1866&etype=r17&type=intgrade") /\
  occurs "Invalid Hall Ticket Number"
    "<html><b>Invalid Hall Ticket Number</b></html>" /\
  fst (Mcp.get_result_pdf
         (answering 404 "<html><b>Invalid Hall Ticket Number</b></html>")
         sample_data (PStr "1866") (PStr "20B81A0501")) = NotFoundRecord /\
  fst (App.mcp_generate_result
         (answering 200 "<html><b>Invalid Hall Ticket Number</b></html>")
         sample_data (PStr "1866") (PStr "20B81A0501")) = NotFoundRecord.
Proof.
  assert (H1 : result_rows sample_data (PStr "1866") = [row_1866])
    by reflexivity.
  assert (H2 : URL row_1866 = PStr (base_url +:+ "?degree=btech&examCode=1866&etype=r17&type=intgrade"))
    by reflexivity.
  assert (H3 : occurs "Invalid Hall Ticket Number"
                 "<html><b>Invalid Hall Ticket Number</b></html>").
  { exists "<html><b>", "</b></html>". reflexivity. }
  split; [exact H1|]. split; [exact H2|]. split; [exact H3|]. split.
  - destruct (C3_not_found_phrases
                (answering 404 "<html><b>Invalid Hall Ticket Number</b></html>")
                sample_data (PStr "1866") (PStr "20B81A0501") row_1866 [] _
                404 _ _ H1 H2 (or_introl eq_refl) H3) as (Hm & _).
    rewrite Hm; reflexivity.
  - destruct (C3_not_found_phrases
                (answering 200 "<html><b>Invalid Hall Ticket Number</b></html>")
                sample_data (PStr "1866") (PStr "20B81A0501") row_1866 [] _
                200 _ _ H1 H2 (or_introl eq_refl) H3) as (_ & Ha & _).
    rewrite Ha; reflexivity.
Defined.

(** The claim fails on app.py for a response with an error status: the
    body says "No Records Found", the status is 404, and the answer is
    TransportError. *)
Lemma C3_counterexample_app_error_status :
  Text.contains "No Records Found" "<html>No Records Found</html>" = true /\
  App.mcp_generate_result (answering 404 "<html>No Records Found</html>")
    sample_data (PStr "1866") (PStr "20B81A0501")
  = (TransportError,
     [Posted
        (App.resolve_params
           (base_url +:+ "?degree=btech&examCode=1866&etype=r17&type=intgrade")
           (PStr "20B81A0501"))
        (base_url +:+ "?degree=btech&examCode=1866&etype=r17&type=intgrade")]).
Proof. split; reflexivity. Qed.

End GenerateClaims.

(** ** Laws of the two searches *)
Module FilterLaws.
Import Notions MoreNotions Sample FilterFacts FacetFacts.

Lemma filter_sublist (p : Row -> bool) df : sublist (List.filter p df) df.
Proof.
  induction df as [|r df IH]; simpl; [constructor|].
  destruct (p r); [apply sublist_skip | apply sublist_cons]; exact IH.
Qed.

Lemma mask_like_sublist F df : mask_like F -> sublist (F df) df.
Proof. intros [p Hp]. rewrite Hp. apply filter_sublist. Qed.




Lemma passes_In F r : mask_like F -> passes F r = true <-> In r (F [r]).
Proof. intros H. rewrite (mask_like_In F [r] r H). simpl. tauto. Qed.

(** A search of either entry point returns rows of the catalog, each at
    most as often as the catalog has it, in catalog order. *)
Theorem search_is_sublist
    (df : list Row) (filters : gmap string string)
    (d y s g e c : option string) :
  sublist (App.filter_results filters df) df /\
  sublist (Mcp.filter_results d y s g e c df) df.
Proof.
  split; apply mask_like_sublist;
    [apply app_filter_results | apply mcp_filter_results].
Qed.



Lemma facets_dec k : In k facets \/ ~ In k facets.
Proof. destruct (in_dec string_dec k facets); tauto. Qed.

(** In app.py, criteria with the facet [k] set to [v] select what a search
    on that facet alone selects from the result of the criteria without
    it: the predicates of a search act one after the other, independently. *)
Theorem search_by_one_more_facet
    (df : list Row) (filters : gmap string string) (k v : string) :
  App.filter_results (<[k := v]> filters) df
  = App.filter_results (<[k := v]> ∅)
      (App.filter_results (delete k filters) df).
Proof.
  destruct (facets_dec k) as [Hk|Hk].
  - rewrite (mask_like_passes _ df (app_filter_results (<[k:=v]> filters))).
    rewrite (mask_like_passes _ (App.filter_results _ df)
               (app_filter_results (<[k:=v]> ∅))).
    rewrite (mask_like_passes _ df (app_filter_results (delete k filters))).
    rewrite filter_twice. apply List.filter_ext. intros r.
    apply eq_true_iff_eq. rewrite andb_true_iff.
    rewrite !passes_In by apply app_filter_results.
    rewrite (facet_In k v filters [r] r Hk).
    now rewrite <- (passes_In (App.filter_results (<[k:=v]> ∅)))
      by apply app_filter_results.
  - assert (E : forall (m : gmap string string) k',
              In k' facets -> App.given (<[k:=v]> m) k' = App.given m k').
    { intros m k' Hk'. apply given_insert_ne. intros ->. contradiction. }
    rewrite (filter_results_given (<[k:=v]> filters) (delete k filters)).
    + rewrite (filter_results_given (<[k:=v]> ∅) ∅) by apply E. reflexivity.
    + intros k' Hk'. rewrite E by exact Hk'.
      symmetry. apply given_delete_ne. intros ->. contradiction.
Qed.


End FilterLaws.

(** ** mcp.py's search against app.py's *)
Module SearchComparison.
Import Notions MoreNotions Sample FilterFacts FacetFacts FilterLaws.







End SearchComparison.

(** ** Where the search raises *)
Module FilterErrors.
Import Notions MoreNotions Sample FilterFacts.

Lemma no_text_cell (column : Row -> pyval) df r t :
  accepts_str column df = false -> In r df -> column r <> PStr t.
Proof.
  intros H Hr E. destruct df as [|r0 df]; [discriminate|].
  unfold accepts_str in H.
  assert (Ht : existsb (fun r => match column r with PStr _ => true | _ => false end)
                 (r0 :: df) = true).
  { apply existsb_exists. exists r. split; [exact Hr|]. now rewrite E. }
  congruence.
Qed.

Lemma no_row_is_nil (l : list Row) : (forall r, ~ In r l) -> l = [].
Proof. destruct l as [|r l]; [reflexivity|]. intros H. destruct (H r). now left. Qed.

Lemma text_needed_lower c x : eq_text (str_lower c) x = true -> exists t, c = PStr t.
Proof. destruct c; simpl; try discriminate. eauto. Qed.

Lemma text_needed_isin c xs : isin (str_lower c) xs = true -> exists t, c = PStr t.
Proof. destruct c; simpl; try discriminate. eauto. Qed.

Lemma text_needed_contains ps c :
  str_contains_nocase ps c = true -> exists t, c = PStr t.
Proof. destruct c; simpl; try discriminate. eauto. Qed.

Ltac refute_pass Hacc Hin :=
  match goal with
  | H : passes (fun df => List.filter ?p df) ?r = true |- _ =>
      change (passes (List.filter p) r = true) in H;
      rewrite passes_filter in H;
      first [ apply text_needed_lower in H
            | apply text_needed_isin in H
            | apply text_needed_contains in H ];
      destruct H as [t Ht];
      exact (no_text_cell _ _ _ t Hacc Hin Ht)
  end.

(** Where app.py's [filter_results] raises, no row passes the block that
    raises: the rows of [App.filter_results] are none. *)
Lemma app_refused_returns_no_row filters df :
  App.filter_refused filters df = true -> App.filter_results filters df = [].
Proof.
  intros H. apply no_row_is_nil. intros r Hr.
  apply app_filter_results_In in Hr
    as (Hin & Pd & Py & Ps & Pg & Pe & Pc).
  unfold App.filter_refused in H.
  unfold App.by_degree_type in Pd. unfold App.by_year in Py.
  unfold App.by_semester in Ps. unfold App.by_regulation in Pg.
  unfold App.by_exam_type in Pe. unfold App.by_rc_rv in Pc.
  repeat (apply orb_true_iff in H as [H|H]).
  - destruct (App.given filters "degree_type") as [d|]; [|discriminate].
    apply andb_true_iff in H as [Hk Hacc]. apply negb_true_iff in Hacc.
    destruct (String.eqb d "BTech"); [refute_pass Hacc Hin|].
    destruct (String.eqb d "B.Pharmacy"); [refute_pass Hacc Hin|].
    destruct (String.eqb d "MTech"); [refute_pass Hacc Hin|].
    destruct (String.eqb d "M.Pharmacy"); [refute_pass Hacc Hin|].
    discriminate.
  - destruct (App.given filters "year"); [|discriminate].
    apply negb_true_iff in H. refute_pass H Hin.
  - destruct (App.given filters "semester"); [|discriminate].
    apply negb_true_iff in H. refute_pass H Hin.
  - destruct (App.given filters "regulation"); [|discriminate].
    apply negb_true_iff in H. refute_pass H Hin.
  - destruct (App.given filters "exam_type") as [e|]; [|discriminate].
    apply andb_true_iff in H as [Hk Hacc]. apply negb_true_iff in Hacc.
    destruct (String.eqb e "Regular"); [refute_pass Hacc Hin|].
    destruct (String.eqb e "Supplementary"); [refute_pass Hacc Hin|].
    discriminate.
  - destruct (App.given filters "rc_rv") as [c|]; [|discriminate].
    apply andb_true_iff in H as [Hk Hacc]. apply negb_true_iff in Hacc.
    destruct (String.eqb c "Yes"); [refute_pass Hacc Hin|].
    discriminate.
Qed.

(** A call that returns, returns the rows of [App.filter_results]; a call
    that raises leaves [App.filter_results] without rows. *)
Lemma app_call_filter_results filters df :
  match App.call_filter_results filters df with
  | Some rows => rows = App.filter_results filters df
  | None => App.filter_results filters df = []
  end.
Proof.
  unfold App.call_filter_results.
  destruct (App.filter_refused filters df) eqn:E; [|reflexivity].
  now apply app_refused_returns_no_row.
Qed.

(** The same for mcp.py, but for the value "No" of the RC/RV argument,
    whose block keeps the rows without a text title. *)
Lemma mcp_refused_returns_no_row d y s g e c df :
  Mcp.filter_refused e c df = true ->
  Mcp.given c <> Some "No" ->
  Mcp.filter_results d y s g e c df = [].
Proof.
  intros H Hno. apply no_row_is_nil. intros r Hr.
  apply mcp_filter_results_In in Hr
    as (Hin & _ & _ & _ & _ & Pe & Pc).
  unfold Mcp.filter_refused in H.
  unfold Mcp.by_exam_type in Pe. unfold Mcp.by_rc_rv in Pc.
  apply orb_true_iff in H as [H|H].
  - destruct (Mcp.given e) as [x|]; [|discriminate].
    apply andb_true_iff in H as [Hk Hacc]. apply negb_true_iff in Hacc.
    apply String.eqb_eq in Hk. rewrite Hk in Pe. simpl in Pe.
    refute_pass Hacc Hin.
  - destruct (Mcp.given c) as [x|]; [|discriminate].
    apply andb_true_iff in H as [Hk Hacc]. apply negb_true_iff in Hacc.
    assert (Hn : String.eqb x "No" = false).
    { apply String.eqb_neq. congruence. }
    rewrite Hn in Hk.
    destruct (String.eqb x "Yes"); [refute_pass Hacc Hin | discriminate].
Qed.

(** A catalog whose Year fields are all empty: app.py's search by year
    raises, and the search action answers with its error although every
    title is text. *)
Example search_by_year_on_year_less_catalog :
  App.call_filter_results {["year" := "IV"]} [year_less_row] = None /\
  AppRoutes.mcp_search_results [year_less_row] {["year" := "IV"]}
  = AppRoutes.SearchError /\
  AppRoutes.mcp_search_results [year_less_row] ∅
  = AppRoutes.SearchSuccess 1
      [ {| AppRoutes.id := 0;
           AppRoutes.title := Title year_less_row;
           AppRoutes.exam_date := Exam_Date year_less_row;
           AppRoutes.regulation := Regulation year_less_row;
           AppRoutes.year := PNaN;
           AppRoutes.semester := Semester year_less_row;
           AppRoutes.exam_type := Exam_Type year_less_row;
           AppRoutes.exam_code := examCode year_less_row;
           AppRoutes.is_rc_rv := "No" |} ].
Proof. repeat split; reflexivity. Qed.

End FilterErrors.

(** ** The search action of app.py *)
Module SearchRoute.
Import Notions MoreNotions Sample AppRoutes.

Lemma rc_rv_label_text t :
  rc_rv_label (PStr t)
  = Some (if Text.contains "RC/RV" t || Text.contains "RCRV" t
          then "Yes" else "No").
Proof.
  unfold rc_rv_label, py_in.
  destruct (Text.contains "RC/RV" t), (Text.contains "RCRV" t); reflexivity.
Qed.



Lemma entries_fields results : forall idx l,
  entries idx results = Some l ->
  map id l = seq idx (length results) /\
  map title l = map Title results /\
  map exam_date l = map Exam_Date results /\
  map regulation l = map Regulation results /\
  map year l = map Year results /\
  map semester l = map Semester results /\
  map exam_type l = map Exam_Type results /\
  map exam_code l = map examCode results.
Proof.
  induction results as [|r rs IH]; intros idx l; simpl.
  - intros [= <-]. repeat split; reflexivity.
  - destruct (rc_rv_label (Title r)); [|discriminate].
    destruct (entries (S idx) rs) as [more|] eqn:Em; [|discriminate].
    intros [= <-]. destruct (IH _ _ Em) as (H1 & H2 & H3 & H4 & H5 & H6 & H7 & H8).
    simpl. now rewrite H1, H2, H3, H4, H5, H6, H7, H8.
Qed.

Lemma entries_labels results : forall idx l,
  entries idx results = Some l ->
  forall it, In it l ->
  exists t, title it = PStr t /\
            is_rc_rv it = if Text.contains "RC/RV" t || Text.contains "RCRV" t
                          then "Yes" else "No".
Proof.
  induction results as [|r rs IH]; intros idx l; simpl.
  - intros [= <-] it [].
  - destruct (rc_rv_label (Title r)) as [label|] eqn:E; [|discriminate].
    destruct (entries (S idx) rs) as [more|] eqn:Em; [|discriminate].
    intros [= <-] it [<-|Hin]; [|eauto].
    simpl. destruct (Title r) as [| |t|z]; try discriminate.
    rewrite rc_rv_label_text in E. injection E as <-. eauto.
Qed.

Lemma lower_app a b : Text.lower (a +:+ b) = Text.lower a +:+ Text.lower b.
Proof. induction a as [|c a IH]; simpl; [|rewrite IH]; reflexivity. Qed.

Lemma occurs_any_case p t : occurs p t -> occurs_nocase p t.
Proof.
  intros (a & b & ->). exists (Text.lower a), (Text.lower b).
  now rewrite !lower_app.
Qed.

(** A successful search answer is the filter result entry by entry: its
    count is the number of rows kept, the entries are numbered from 0 in
    the order of the rows, and each carries the title, date, regulation,
    year, semester, exam type and exam code of its row. *)
Theorem search_answer_follows_filter
    (df : list Row) (filters : gmap string string)
    (count : nat) (results : list item) :
  mcp_search_results df filters = SearchSuccess count results ->
  count = length (App.filter_results filters df) /\
  length results = count /\
  map id results = seq 0 count /\
  map title results = map Title (App.filter_results filters df) /\
  map exam_date results = map Exam_Date (App.filter_results filters df) /\
  map regulation results = map Regulation (App.filter_results filters df) /\
  map year results = map Year (App.filter_results filters df) /\
  map semester results = map Semester (App.filter_results filters df) /\
  map exam_type results = map Exam_Type (App.filter_results filters df) /\
  map exam_code results = map examCode (App.filter_results filters df).
Proof.
  unfold mcp_search_results, App.call_filter_results.
  destruct (App.filter_refused filters df); [discriminate|]. cbv zeta.
  destruct (entries 0 (App.filter_results filters df)) as [l|] eqn:E;
    [|discriminate].
  intros [= <- <-].
  destruct (entries_fields _ _ _ E) as (H1 & H2 & H3 & H4 & H5 & H6 & H7 & H8).
  split; [reflexivity|]. split.
  - rewrite <- (length_map id), H1. apply length_seq.
  - tauto.
Qed.

Lemma search_answer_witness :
  mcp_search_results sample_data {["exam_type" := "Regular"]}
  = SearchSuccess 2 regular_entries /\
  2%nat = length (App.filter_results {["exam_type" := "Regular"]} sample_data).
Proof.
  assert (H : mcp_search_results sample_data {["exam_type" := "Regular"]}
              = SearchSuccess 2 regular_entries) by reflexivity.
  split; [exact H|].
  exact (proj1 (search_answer_follows_filter _ _ _ _ H)).
Defined.


(** Every entry of a successful answer is labelled "Yes" or "No", and
    "Yes" exactly when its title contains "RC/RV" or "RCRV" in these very
    letters; so an entry labelled "Yes" is always one that the RC/RV
    filter keeps, while the filter, which ignores case, also keeps titles
    that are labelled "No". *)
Theorem search_label_is_case_sensitive
    (df : list Row) (filters : gmap string string)
    (count : nat) (results : list item) (it : item) :
  mcp_search_results df filters = SearchSuccess count results ->
  In it results ->
  exists t,
    title it = PStr t /\
    (is_rc_rv it = "Yes" \/ is_rc_rv it = "No") /\
    (is_rc_rv it = "Yes" <-> occurs "RC/RV" t \/ occurs "RCRV" t) /\
    (is_rc_rv it = "Yes" ->
     occurs_nocase "RC/RV" t \/ occurs_nocase "RCRV" t).
Proof.
  unfold mcp_search_results, App.call_filter_results.
  destruct (App.filter_refused filters df); [discriminate|]. cbv zeta.
  destruct (entries 0 (App.filter_results filters df)) as [l|] eqn:E;
    [|discriminate].
  intros [= <- <-] Hin.
  destruct (entries_labels _ _ _ E it Hin) as (t & Ht & Hl).
  exists t. split; [exact Ht|].
  assert (Hiff : is_rc_rv it = "Yes" <-> occurs "RC/RV" t \/ occurs "RCRV" t).
  { rewrite Hl, <- !TextFacts.contains_spec, <- orb_true_iff.
    destruct (Text.contains "RC/RV" t || Text.contains "RCRV" t);
      split; first [reflexivity | discriminate]. }
  split.
  - rewrite Hl. destruct (_ || _); auto.
  - split; [exact Hiff|].
    intros H. apply Hiff in H as [H|H]; [left|right];
      now apply occurs_any_case.
Qed.

Lemma search_label_witness :
  mcp_search_results sample_data {["exam_type" := "Regular"]}
  = SearchSuccess 2 regular_entries /\
  (forall it, In it regular_entries ->
     exists t, title it = PStr t /\ ~ occurs "RCRV" t).
Proof.
  assert (H : mcp_search_results sample_data {["exam_type" := "Regular"]}
              = SearchSuccess 2 regular_entries) by reflexivity.
  split; [exact H|].
  intros it Hin.
  destruct (search_label_is_case_sensitive sample_data
              {["exam_type" := "Regular"]} 2 regular_entries it H Hin)
    as (t & Ht & _ & Hiff & _).
  exists t. split; [exact Ht|].
  intros Hocc. assert (Hy : is_rc_rv it = "Yes") by (apply Hiff; now right).
  destruct Hin as [<-|[<-|[]]]; discriminate Hy.
Defined.

End SearchRoute.

(** ** The options the two entry points offer *)
Module OfferedOptions.
Import Notions MoreNotions Sample FacetFacts FacetMeaning FacetIndexClaims.





(** What app.py offers for a column of the schema. *)
Lemma unique_values_of_In (column : Row -> pyval) name df v :
  (forall r, cell name r = Some (column r)) ->
  In v (App.get_unique_values df name) <->
  (exists r, In r df /\ notna (column r) = true /\ Py.str (column r) = v) /\
  ~ Text.caseless_eq v "unknown" /\ ~ Text.caseless_eq v "nan".
Proof.
  intros Hcell. unfold App.get_unique_values.
  destruct (existsb (String.eqb name) columns) eqn:E.
  - cbn [negb]. cbv zeta. rewrite List.filter_In. cbv beta.
    rewrite not_sentinel, unique_In, in_map_iff.
    assert (Hcol : omap (cell name) df = map column df).
    { induction df as [|r df IH]; [reflexivity|].
      change (omap (cell name) (r :: df))
        with (match cell name r with
              | Some y => y :: omap (cell name) df
              | None => omap (cell name) df
              end).
      now rewrite Hcell, IH. }
    rewrite Hcol. split.
    + intros [[(c & Hc & Hin) _] Hs]. split; [|exact Hs].
      apply List.filter_In in Hin as [Hin Hna].
      apply in_map_iff in Hin as (r & <- & Hr). eauto.
    + intros [(r & Hr & Hna & Hc) Hs].
      split; [|exact Hs]. split; [|simpl; tauto].
      exists (column r). split; [exact Hc|].
      apply List.filter_In. split; [|exact Hna]. apply in_map_iff. eauto.
  - exfalso. destruct df as [|r df].
    + pose proof (cell_unknown name
        {| Title := PNaN; URL := PNaN; Exam_Date := PNaN; degree := PNaN;
           examCode := PNaN; etype := PNaN; type := PNaN; result := PNaN;
           grad := PNaN; Regulation := PNaN; Is_Supplementary := PNaN;
           Exam_Type := PNaN; Year := PNaN; Semester := PNaN |} E) as H.
      rewrite Hcell in H. discriminate.
    + pose proof (cell_unknown name r E) as H.
      rewrite Hcell in H. discriminate.
Qed.

Lemma text_cell v c : text_or_null c -> notna c = true -> Py.str c = v -> c = PStr v.
Proof. destruct c; simpl; intros H Hn Hs; try discriminate; [congruence|tauto]. Qed.

Lemma search_empty_criteria df : App.filter_results ∅ df = df.
Proof. reflexivity. Qed.

(** A value offered for a facet of app.py, used as the only criterion,
    finds the rows it was read from. *)
Lemma app_option_found (column : Row -> pyval) name k df v :
  (forall r, cell name r = Some (column r)) ->
  In k facets ->
  (forall w r, w <> "" ->
     passes (App.filter_results (<[k := w]> ∅)) r = true <->
     exists t, column r = PStr t /\ Text.caseless_eq t w) ->
  (forall r, In r df -> text_or_null (column r)) ->
  In v (App.get_unique_values df name) ->
  exists r, In r (App.filter_results {[k := v]} df) /\ column r = PStr v.
Proof.
  intros Hcell Hk Hmean Htext Hv.
  apply (unique_values_of_In column) in Hv as [(r & Hr & Hna & Hs) _];
    [|exact Hcell].
  pose proof (text_cell v _ (Htext r Hr) Hna Hs) as Hc.
  exists r. split; [|exact Hc].
  rewrite <- insert_empty.
  destruct (String.eqb_spec v "") as [->|Hne].
  - rewrite (filter_results_given (<[k:=""]> ∅) ∅); [exact Hr|].
    intros k' _. destruct (String.eqb_spec k k') as [<-|Hkk].
    + now rewrite given_insert_eq, given_empty.
    + now rewrite given_insert_ne.
  - apply (facet_In k v ∅ df r Hk). split.
    + rewrite (filter_results_given (delete k ∅) ∅); [exact Hr|].
      intros k' _. destruct (String.eqb_spec k k') as [<-|Hkk].
      * now rewrite given_delete_eq, given_empty.
      * now rewrite given_delete_ne.
    + apply Hmean; [exact Hne|]. exists v. split; [exact Hc|].
      apply TextFacts.caseless_eq_refl.
Qed.

(** On a catalog whose year, semester and regulation cells are text or
    empty, every year, semester and regulation that [get_mcp_context]
    offers finds at least one row when it is used as the only criterion
    of a search of app.py: a row whose stored token is that very value. *)
Theorem app_offered_values_find_rows (df : list Row) (v : string) :
  (forall r, In r df ->
     text_or_null (Year r) /\ text_or_null (Semester r)
     /\ text_or_null (Regulation r)) ->
  (In v (AppRoutes.years (AppRoutes.get_mcp_context df)) ->
   exists r, In r (App.filter_results {["year" := v]} df)
             /\ Year r = PStr v) /\
  (In v (AppRoutes.semesters (AppRoutes.get_mcp_context df)) ->
   exists r, In r (App.filter_results {["semester" := v]} df)
             /\ Semester r = PStr v) /\
  (In v (AppRoutes.regulations (AppRoutes.get_mcp_context df)) ->
   exists r, In r (App.filter_results {["regulation" := v]} df)
             /\ Regulation r = PStr v).
Proof.
  intros H. repeat split_and; simpl; intros Hv.
  - apply (app_option_found Year "Year" "year"); try assumption.
    + reflexivity.
    + simpl; tauto.
    + intros w r Hw. now apply app_year.
    + intros r Hr. apply (H r Hr).
  - apply (app_option_found Semester "Semester" "semester"); try assumption.
    + reflexivity.
    + simpl; tauto.
    + intros w r Hw. now apply app_semester.
    + intros r Hr. apply (H r Hr).
  - apply (app_option_found Regulation "Regulation" "regulation");
      try assumption.
    + reflexivity.
    + simpl; tauto.
    + intros w r Hw. now apply app_regulation.
    + intros r Hr. apply (H r Hr).
Qed.

Lemma sample_tokens_are_text r :
  In r sample_data ->
  text_or_null (Year r) /\ text_or_null (Semester r)
  /\ text_or_null (Regulation r).
Proof.
  intros Hr. simpl in Hr.
  destruct Hr as [<-|[<-|[<-|[<-|[<-|[<-|[<-|[]]]]]]]]; simpl; tauto.
Qed.

Lemma app_offered_values_witness :
  (forall r, In r sample_data ->
     text_or_null (Year r) /\ text_or_null (Semester r)
     /\ text_or_null (Regulation r)) /\
  In "III" (AppRoutes.years (AppRoutes.get_mcp_context sample_data)) /\
  exists r, In r (App.filter_results {["year" := "III"]} sample_data)
            /\ Year r = PStr "III".
Proof.
  assert (Hin : In "III" (AppRoutes.years (AppRoutes.get_mcp_context sample_data))).
  { right. left. reflexivity. }
  split; [exact sample_tokens_are_text|]. split; [exact Hin|].
  exact (proj1 (app_offered_values_find_rows sample_data "III"
                  sample_tokens_are_text) Hin).
Defined.





End OfferedOptions.

(** ** Reading back a reference that was written from pairs *)
Module ResolverLaws.
Import Notions MoreNotions Sample SplitFacts GenerateClaims.

Lemma has_char_cons sep c s :
  Text.has_char sep (String c s) = Ascii.eqb c sep || Text.has_char sep s.
Proof. reflexivity. Qed.

Lemma split_join sep parts :
  parts <> [] ->
  (forall p, In p parts -> Text.has_char sep p = false) ->
  Text.split sep (join sep parts) = parts.
Proof.
  induction parts as [|p rest IH]; intros Hne Hparts; [congruence|].
  destruct rest as [|q rest].
  - simpl. apply split_no_sep. apply Hparts. now left.
  - change (join sep (p :: q :: rest))
      with (p +:+ String sep (join sep (q :: rest))).
    rewrite split_at_first by (apply Hparts; now left).
    f_equal. apply IH; [discriminate|].
    intros p' Hp'. apply Hparts. now right.
Qed.

Lemma join_has_char c sep parts :
  Ascii.eqb sep c = false ->
  (forall p, In p parts -> Text.has_char c p = false) ->
  Text.has_char c (join sep parts) = false.
Proof.
  intros Hsep. induction parts as [|p rest IH]; intros Hparts; [reflexivity|].
  destruct rest as [|q rest].
  - apply Hparts. now left.
  - change (join sep (p :: q :: rest))
      with (p +:+ String sep (join sep (q :: rest))).
    rewrite has_char_app, has_char_cons, Hsep.
    rewrite (Hparts p) by now left.
    rewrite IH; [reflexivity|]. intros p' Hp'. apply Hparts. now right.
Qed.

Lemma component_has_char c kv :
  Ascii.eqb "=" c = false ->
  Text.has_char c (fst kv) = false -> Text.has_char c (snd kv) = false ->
  Text.has_char c (component kv) = false.
Proof.
  intros Hc Hk Hv. unfold component.
  now rewrite has_char_app, has_char_cons, Hc, Hk, Hv.
Qed.

Lemma omap_components pairs :
  (forall kv, In kv pairs -> key_ok (fst kv)) ->
  omap pair_of (map component pairs) = pairs.
Proof.
  induction pairs as [|[k v] rest IH]; intros H; [reflexivity|].
  change (omap pair_of (map component ((k, v) :: rest)))
    with (match pair_of (component (k, v)) with
          | Some y => y :: omap pair_of (map component rest)
          | None => omap pair_of (map component rest)
          end).
  assert (E : pair_of (component (k, v)) = Some (k, v)).
  { apply pair_of_spec. split; [reflexivity|].
    apply (H (k, v)). now left. }
  rewrite E, IH; [reflexivity|]. intros kv Hkv. apply H. now right.
Qed.

Lemma url_pairs_of_query base pairs :
  Text.has_char "?" base = false ->
  (forall kv, In kv pairs -> key_ok (fst kv) /\ value_ok (snd kv)) ->
  url_pairs (base +:+ String "?" (query_of pairs)) = pairs.
Proof.
  intros Hbase Hpairs. unfold url_pairs, query_of.
  assert (Hq : Text.has_char "?" (join "&" (map component pairs)) = false).
  { apply join_has_char; [reflexivity|].
    intros p Hp. apply in_map_iff in Hp as (kv & <- & Hkv).
    destruct (Hpairs kv Hkv) as [(_ & _ & Hk) (_ & Hv)].
    now apply component_has_char. }
  rewrite has_char_app, has_char_cons, Hbase. simpl orb. cbv iota.
  rewrite (query_string_single _ _ Hbase Hq).
  destruct pairs as [|kv rest]; [reflexivity|].
  rewrite split_join.
  - apply omap_components. intros kv' Hkv'. apply (Hpairs kv' Hkv').
  - discriminate.
  - intros p Hp. apply in_map_iff in Hp as (kv' & <- & Hkv').
    destruct (Hpairs kv' Hkv') as [(_ & Hk & _) (Hv & _)].
    now apply component_has_char.
Qed.

(** A reference written as [base?k1=v1&k2=v2...], with no ['?'] in the
    base, no ['='], ['&'] or ['?'] in a key and no ['&'] or ['?'] in a
    value, is read back pair for pair: the mapping posted for it has,
    under every key but [htno], the value of the last pair with that key
    (in mcp.py the seeded column when there is none), and the student id
    under [htno].  A value may contain ['=']. *)
Theorem written_reference_is_read_back
    (base : string) (pairs : list (string * string))
    (row : Row) (htno : pyval) (k : string) :
  Text.has_char "?" base = false ->
  (forall kv, In kv pairs -> key_ok (fst kv) /\ value_ok (snd kv)) ->
  url_pairs (base +:+ String "?" (query_of pairs)) = pairs /\
  App.resolve_params (base +:+ String "?" (query_of pairs)) htno !! k
  = (if String.eqb k "htno" then Some htno
     else PStr <$> last_value k pairs) /\
  Mcp.resolve_params row (base +:+ String "?" (query_of pairs)) htno !! k
  = (if String.eqb k "htno" then Some htno
     else match last_value k pairs with
          | Some v => Some (PStr v)
          | None => declared_token row k
          end).
Proof.
  intros Hbase Hpairs.
  pose proof (url_pairs_of_query base pairs Hbase Hpairs) as E.
  split; [exact E|].
  now rewrite app_lookup, mcp_lookup, E.
Qed.

Lemma written_reference_witness :
  Text.has_char "?" base_url = false /\
  (forall kv, In kv [("degree", "btech"); ("examCode", "1866"); ("q", "a=b")] ->
     key_ok (fst kv) /\ value_ok (snd kv)) /\
  url_pairs (base_url +:+ "?degree=btech&examCode=1866&q=a=b")
  = [("degree", "btech"); ("examCode", "1866"); ("q", "a=b")].
Proof.
  assert (H1 : Text.has_char "?" base_url = false) by reflexivity.
  assert (H2 : forall kv,
            In kv [("degree", "btech"); ("examCode", "1866"); ("q", "a=b")] ->
            key_ok (fst kv) /\ value_ok (snd kv)).
  { intros kv [<-|[<-|[<-|[]]]]; repeat split; reflexivity. }
  split; [exact H1|]. split; [exact H2|].
  exact (proj1 (written_reference_is_read_back base_url _ row_1866
                  (PStr "20B81A0501") "degree" H1 H2)).
Defined.

End ResolverLaws.

(** ** Laws of the generate operation *)
Module GenerateLaws.
Import Notions MoreNotions Sample AppRoutes GenerateClaims.

Lemma append_inj_l a x y : a +:+ x = a +:+ y -> x = y.
Proof. induction a as [|c a IH]; simpl; [tauto|]. intros [= H]. auto. Qed.

Lemma length_append a b :
  String.length (a +:+ b) = (String.length a + String.length b)%nat.
Proof. induction a as [|c a IH]; simpl; [|rewrite IH]; reflexivity. Qed.

Lemma append_inj_r a : forall x y, x +:+ a = y +:+ a -> x = y.
Proof.
  induction x as [|c x IH]; intros [|d y] H; simpl in H.
  - reflexivity.
  - apply (f_equal String.length) in H. simpl in H.
    rewrite length_append in H. lia.
  - apply (f_equal String.length) in H. simpl in H.
    rewrite length_append in H. lia.
  - injection H as -> H. f_equal. now apply IH.
Qed.

Lemma artifact_name_timestamp h e t1 t2 :
  artifact_name h e t1 = artifact_name h e t2 -> t1 = t2.
Proof.
  unfold artifact_name. intros H.
  do 5 apply append_inj_l in H. now apply append_inj_r in H.
Qed.

(** What a success of app.py returns and has written. *)
Lemma app_success w df e h l s :
  fst (App.mcp_generate_result w df e h) = Success l s ->
  l = "/static/pdfs/" +:+ artifact_name h e (now w) /\
  exists body,
    In (WritePdf body (PDF_DIR w +:+ "/" +:+ artifact_name h e (now w)))
       (snd (App.mcp_generate_result w df e h)).
Proof.
  unfold App.mcp_generate_result.
  destruct (negb (truthy e) || negb (truthy h)); [discriminate|].
  destruct (result_rows df e) as [|row0 rest]; [discriminate|].
  destruct (URL row0) as [| |url|z]; try discriminate.
  cbv zeta. destruct (post w _ url) as [|st body]; [discriminate|].
  destruct (raise_for_status st); [discriminate|].
  destruct (existsb _ App.error_phrases); [discriminate|].
  fold (artifact_name h e (now w)).
  destruct (write_pdf w body _); [|discriminate].
  cbn [fst snd]. intros [= <- _]. split; [reflexivity|].
  exists body. right. left. reflexivity.
Qed.

Lemma mcp_success w df e h l s :
  fst (Mcp.get_result_pdf w df e h) = Success l s ->
  l = "static/pdfs" +:+ "/" +:+ artifact_name h e (now w).
Proof.
  unfold Mcp.get_result_pdf.
  destruct (result_rows df e) as [|row0 rest]; [discriminate|].
  destruct (URL row0) as [| |url|z]; try discriminate.
  cbv zeta. destruct (post w _ url) as [|st body]; [discriminate|].
  destruct (existsb _ Mcp.error_indicators); [discriminate|].
  fold (artifact_name h e (now w)).
  destruct (write_pdf w body _); [|discriminate].
  cbn [fst]. intros [= <- _]. reflexivity.
Qed.

(** Two successful generations for the same student and exam that read
    different clock values (the clock counts whole seconds) return
    different locators, in both entry points. *)
Theorem locators_of_different_seconds_differ
    (w1 w2 : World) (df1 df2 : list Row) (exam_code htno : pyval)
    (l1 l2 : string) (s1 s2 : option Z) :
  now w1 <> now w2 ->
  (fst (App.mcp_generate_result w1 df1 exam_code htno) = Success l1 s1 ->
   fst (App.mcp_generate_result w2 df2 exam_code htno) = Success l2 s2 ->
   l1 <> l2) /\
  (fst (Mcp.get_result_pdf w1 df1 exam_code htno) = Success l1 s1 ->
   fst (Mcp.get_result_pdf w2 df2 exam_code htno) = Success l2 s2 ->
   l1 <> l2).
Proof.
  intros Hnow. split; intros H1 H2 E; apply Hnow.
  - apply app_success in H1 as [-> _]. apply app_success in H2 as [-> _].
    apply append_inj_l in E. now apply artifact_name_timestamp in E.
  - apply mcp_success in H1 as ->. apply mcp_success in H2 as ->.
    do 2 apply append_inj_l in E. now apply artifact_name_timestamp in E.
Qed.

Lemma locators_witness :
  now (answering 200 "<html>marks</html>")
  <> now (at_time "20250808_101501" (answering 200 "<html>marks</html>")) /\
  "static/pdfs/result_20B81A0501_1866_20250808_101500.pdf"
  <> "static/pdfs/result_20B81A0501_1866_20250808_101501.pdf".
Proof.
  assert (H : now (answering 200 "<html>marks</html>")
              <> now (at_time "20250808_101501"
                        (answering 200 "<html>marks</html>")))
    by discriminate.
  split; [exact H|].
  exact (proj2 (locators_of_different_seconds_differ
                  (answering 200 "<html>marks</html>")
                  (at_time "20250808_101501"
                     (answering 200 "<html>marks</html>"))
                  sample_data sample_data (PStr "1866") (PStr "20B81A0501")
                  _ _ None None H) eq_refl eq_refl).
Defined.

(** The locator that app.py returns on success names, by its last
    segment, the file it has written under [PDF_DIR]: [serve_pdf] asked for
    that name sends that very file as long as it exists, and answers 404
    once it does not. *)
Theorem generated_pdf_is_the_one_served
    (w : World) (df : list Row) (exam_code htno : pyval)
    (locator : string) (size : option Z) (path_exists : string -> bool) :
  fst (App.mcp_generate_result w df exam_code htno) = Success locator size ->
  exists filename body,
    locator = "/static/pdfs/" +:+ filename /\
    In (WritePdf body (PDF_DIR w +:+ "/" +:+ filename))
       (snd (App.mcp_generate_result w df exam_code htno)) /\
    serve_pdf w path_exists filename
    = if path_exists (PDF_DIR w +:+ "/" +:+ filename)
      then SendFile (PDF_DIR w +:+ "/" +:+ filename) filename
      else Abort404.
Proof.
  intros H. apply app_success in H as [-> [body Hin]].
  exists (artifact_name htno exam_code (now w)), body.
  split; [reflexivity|]. split; [exact Hin|].
  unfold serve_pdf. cbv zeta.
  destruct (path_exists _); reflexivity.
Qed.

Lemma generated_pdf_witness :
  fst (App.mcp_generate_result (answering 200 "<html>marks</html>")
         sample_data (PStr "1866") (PStr "20B81A0501"))
  = Success "/static/pdfs/result_20B81A0501_1866_20250808_101500.pdf"
      (Some 20480) /\
  exists filename,
    serve_pdf (answering 200 "<html>marks</html>") (fun _ => true) filename
    = SendFile ("/srv/jntuh/static/pdfs" +:+ "/" +:+ filename) filename.
Proof.
  assert (H : fst (App.mcp_generate_result (answering 200 "<html>marks</html>")
                     sample_data (PStr "1866") (PStr "20B81A0501"))
              = Success "/static/pdfs/result_20B81A0501_1866_20250808_101500.pdf"
                  (Some 20480)) by reflexivity.
  split; [exact H|].
  destruct (generated_pdf_is_the_one_served _ _ _ _ _ _ (fun _ => true) H)
    as (filename & _ & _ & _ & Hs).
  exists filename. exact Hs.
Defined.

Lemma result_rows_by_text df e1 e2 :
  Py.str e1 = Py.str e2 -> result_rows df e1 = result_rows df e2.
Proof. intros H. unfold result_rows. now rewrite H. Qed.

(** The exam identifier counts only by the text it stringifies to: the
    number 1866 and the text "1866" give the same answer and the same
    effects in mcp.py, and in app.py too as long as both are truthy or
    both are not (the number 0 is refused as missing, the text "0" is
    not). *)
Theorem exam_code_counts_by_its_text
    (w : World) (df : list Row) (e1 e2 htno : pyval) :
  Py.str e1 = Py.str e2 ->
  Mcp.get_result_pdf w df e1 htno = Mcp.get_result_pdf w df e2 htno /\
  (truthy e1 = truthy e2 ->
   App.mcp_generate_result w df e1 htno
   = App.mcp_generate_result w df e2 htno).
Proof.
  intros H. split.
  - unfold Mcp.get_result_pdf.
    now rewrite (result_rows_by_text df e1 e2 H), H.
  - intros Ht. unfold App.mcp_generate_result.
    now rewrite (result_rows_by_text df e1 e2 H), H, Ht.
Qed.

Lemma exam_code_witness :
  Py.str (PInt 1866) = Py.str (PStr "1866") /\
  App.mcp_generate_result (answering 200 "<html>marks</html>") sample_data
    (PInt 1866) (PStr "20B81A0501")
  = App.mcp_generate_result (answering 200 "<html>marks</html>") sample_data
      (PStr "1866") (PStr "20B81A0501").
Proof.
  assert (H : Py.str (PInt 1866) = Py.str (PStr "1866")) by reflexivity.
  split; [exact H|].
  exact (proj2 (exam_code_counts_by_its_text
                  (answering 200 "<html>marks</html>") sample_data
                  (PInt 1866) (PStr "1866") (PStr "20B81A0501") H) eq_refl).
Defined.

Lemma result_rows_head df e row0 rest :
  result_rows df e = row0 :: rest -> result_rows [row0] e = [row0].
Proof.
  intros H. assert (Hin : In row0 (result_rows df e)) by (rewrite H; now left).
  apply List.filter_In in Hin as [_ Hp].
  unfold result_rows. simpl. now rewrite Hp.
Qed.

(** When several rows of the catalog carry the exam identifier, only the
    first of them counts: the answer and the effects are those for the
    catalog of that row alone. *)
Theorem only_first_matching_row_counts
    (w : World) (df : list Row) (exam_code htno : pyval)
    (row0 : Row) (rest : list Row) :
  result_rows df exam_code = row0 :: rest ->
  Mcp.get_result_pdf w df exam_code htno
  = Mcp.get_result_pdf w [row0] exam_code htno /\
  App.mcp_generate_result w df exam_code htno
  = App.mcp_generate_result w [row0] exam_code htno.
Proof.
  intros H. pose proof (result_rows_head df exam_code row0 rest H) as H0.
  unfold Mcp.get_result_pdf, App.mcp_generate_result.
  rewrite H, H0. split; reflexivity.
Qed.

Lemma first_row_witness :
  result_rows [row_1868; row_1866; row_1866] (PStr "1866")
  = [row_1866; row_1866] /\
  Mcp.get_result_pdf (answering 200 "<html>marks</html>")
    [row_1868; row_1866; row_1866] (PStr "1866") (PStr "20B81A0501")
  = Mcp.get_result_pdf (answering 200 "<html>marks</html>")
      [row_1866] (PStr "1866") (PStr "20B81A0501").
Proof.
  assert (H : result_rows [row_1868; row_1866; row_1866] (PStr "1866")
              = [row_1866; row_1866]) by reflexivity.
  split; [exact H|].
  exact (proj1 (only_first_matching_row_counts
                  (answering 200 "<html>marks</html>") _ (PStr "1866")
                  (PStr "20B81A0501") row_1866 [row_1866] H)).
Defined.

(** app.py answers TransportError exactly when both inputs are given, the
    exam identifier is in the catalog with a text reference, and the one
    request either fails to connect or comes back with a status from 400
    to 599. *)
Theorem app_transport_error_exactly
    (w : World) (df : list Row) (exam_code htno : pyval) :
  fst (App.mcp_generate_result w df exam_code htno) = TransportError <->
  truthy exam_code = true /\ truthy htno = true /\
  exists row0 rest url,
    result_rows df exam_code = row0 :: rest /\ URL row0 = PStr url /\
    (post w (App.resolve_params url htno) url = ConnectionError \/
     exists status_code text,
       post w (App.resolve_params url htno) url = Response status_code text
       /\ 400 <= status_code < 600).
Proof.
  unfold App.mcp_generate_result.
  destruct (truthy exam_code), (truthy htno); cbn [negb orb];
    try (split; [discriminate | intros (? & ? & _); discriminate]).
  destruct (result_rows df exam_code) as [|row0 rest].
  { split; [discriminate|]. intros (_ & _ & ? & ? & ? & ? & _). discriminate. }
  destruct (URL row0) as [| |url|z] eqn:Hurl;
    try (split; [discriminate|];
         intros (_ & _ & r & rs & u & [= <- <-] & Hu & _); congruence).
  cbv zeta.
  destruct (post w (App.resolve_params url htno) url) as [|st text] eqn:Hp.
  - split; [intros _|reflexivity].
    repeat split. exists row0, rest, url. rewrite Hp. auto.
  - assert (Hst : raise_for_status st = true <-> 400 <= st < 600).
    { unfold raise_for_status. rewrite andb_true_iff. lia. }
    destruct (raise_for_status st) eqn:Hr.
    + split; [intros _|reflexivity].
      repeat split. exists row0, rest, url. rewrite Hp.
      split; [reflexivity|]. split; [exact Hurl|].
      right. exists st, text. split; [reflexivity|]. now apply Hst.
    + assert (Hno : ~ 400 <= st < 600) by (intros H; apply Hst in H; discriminate).
      split.
      * destruct (existsb _ App.error_phrases); [discriminate|].
        destruct (write_pdf w text _); discriminate.
      * intros (_ & _ & r & rs & u & [= <- <-] & Hu & Hor).
        rewrite Hurl in Hu. injection Hu as <-.
        rewrite Hp in Hor.
        destruct Hor as [Hc|(st' & text' & [= <- <-] & H)];
          [discriminate | contradiction].
Qed.

Ltac effects_shape :=
  first
    [ left; solve [split; [reflexivity | auto]]
    | right; left; solve [do 2 eexists; split; [reflexivity | auto]]
    | right; right;
      solve [do 5 eexists; split; [reflexivity|];
             split; [eassumption | eauto]] ].

(** A generate call sends at most one request and writes at most one
    file.  Nothing is sent when an input is missing, the exam identifier
    is unknown or the reference is not text; nothing is written when the
    request fails or the answer is NotFoundRecord; a file is written only
    from the body of the response received, and only then can the answer
    be Success.  mcp.py creates its directory just before it writes. *)
Theorem generate_effects_discipline
    (w : World) (df : list Row) (exam_code htno : pyval) :
  ((snd (App.mcp_generate_result w df exam_code htno) = [] /\
    (fst (App.mcp_generate_result w df exam_code htno) = InvalidRequest \/
     fst (App.mcp_generate_result w df exam_code htno) = NotFoundCatalogEntry \/
     fst (App.mcp_generate_result w df exam_code htno) = InternalError)) \/
   (exists params referer,
      snd (App.mcp_generate_result w df exam_code htno)
      = [Posted params referer] /\
      (fst (App.mcp_generate_result w df exam_code htno) = TransportError \/
       fst (App.mcp_generate_result w df exam_code htno) = NotFoundRecord)) \/
   (exists params referer status_code body path,
      snd (App.mcp_generate_result w df exam_code htno)
      = [Posted params referer; WritePdf body path] /\
      post w params referer = Response status_code body /\
      ((exists locator size,
          fst (App.mcp_generate_result w df exam_code htno)
          = Success locator size) \/
       fst (App.mcp_generate_result w df exam_code htno) = InternalError)))
  /\
  ((snd (Mcp.get_result_pdf w df exam_code htno) = [] /\
    (fst (Mcp.get_result_pdf w df exam_code htno) = NotFoundCatalogEntry \/
     fst (Mcp.get_result_pdf w df exam_code htno) = Uncaught)) \/
   (exists params referer,
      snd (Mcp.get_result_pdf w df exam_code htno) = [Posted params referer] /\
      (fst (Mcp.get_result_pdf w df exam_code htno) = Failed \/
       fst (Mcp.get_result_pdf w df exam_code htno) = NotFoundRecord)) \/
   (exists params referer status_code body path,
      snd (Mcp.get_result_pdf w df exam_code htno)
      = [Posted params referer; Makedirs "static/pdfs"; WritePdf body path] /\
      post w params referer = Response status_code body /\
      ((exists locator size,
          fst (Mcp.get_result_pdf w df exam_code htno)
          = Success locator size) \/
       fst (Mcp.get_result_pdf w df exam_code htno) = Failed))).
Proof.
  split.
  - unfold App.mcp_generate_result.
    destruct (negb (truthy exam_code) || negb (truthy htno));
      [effects_shape|].
    destruct (result_rows df exam_code) as [|row0 rest]; [effects_shape|].
    destruct (URL row0) as [| |url|z]; try effects_shape.
    cbv zeta.
    destruct (post w _ url) as [|st body] eqn:Hp; [effects_shape|].
    destruct (raise_for_status st); [effects_shape|].
    destruct (existsb _ App.error_phrases); [effects_shape|].
    destruct (write_pdf w body _); effects_shape.
  - unfold Mcp.get_result_pdf.
    destruct (result_rows df exam_code) as [|row0 rest]; [effects_shape|].
    destruct (URL row0) as [| |url|z]; try effects_shape.
    cbv zeta.
    destruct (post w _ url) as [|st body] eqn:Hp; [effects_shape|].
    destruct (existsb _ Mcp.error_indicators); [effects_shape|].
    destruct (write_pdf w body _); effects_shape.
Qed.

End GenerateLaws.

(** ** How the search reads the values of its criteria *)
Module CriteriaValues.
Import Notions MoreNotions Sample FilterFacts FacetFacts FacetMeaning.

Lemma upper_lower_char' c : Text.upper_char (Text.lower_char c) = Text.upper_char c.
Proof. destruct c as [[] [] [] [] [] [] [] []]; reflexivity. Qed.

Lemma upper_lower v : Text.upper (Text.lower v) = Text.upper v.
Proof.
  induction v as [|c v IH]; simpl; [reflexivity|].
  now rewrite upper_lower_char', IH.
Qed.

Lemma caseless_upper v v' :
  Text.caseless_eq v v' -> Text.upper v = Text.upper v'.
Proof.
  intros H. apply TextFacts.lower_eq_caseless in H.
  now rewrite <- (upper_lower v), H, upper_lower.
Qed.

Lemma caseless_empty v v' :
  Text.caseless_eq v v' -> String.eqb v "" = String.eqb v' "".
Proof. destruct v, v'; simpl; tauto. Qed.

Ltac expose_stages :=
  unfold App.filter_results, App.by_degree_type, App.by_year, App.by_semester,
    App.by_regulation, App.by_exam_type, App.by_rc_rv;
  rewrite ?given_insert_eq, ?given_delete_eq;
  rewrite ?given_insert_ne, ?given_delete_ne by discriminate.

(** The year, semester and regulation values of app.py and the degree
    and regulation arguments of mcp.py may be written in any letter
    case: two values equal up to case give the same answer.  (The stored
    token is compared without regard to case by app.py only.) *)
Theorem value_case_is_ignored
    (df : list Row) (filters : gmap string string)
    (d y s g e c : option string) (v v' : string) :
  Text.caseless_eq v v' ->
  App.filter_results (<["year" := v]> filters) df
  = App.filter_results (<["year" := v']> filters) df /\
  App.filter_results (<["semester" := v]> filters) df
  = App.filter_results (<["semester" := v']> filters) df /\
  App.filter_results (<["regulation" := v]> filters) df
  = App.filter_results (<["regulation" := v']> filters) df /\
  Mcp.filter_results (Some v) y s g e c df
  = Mcp.filter_results (Some v') y s g e c df /\
  Mcp.filter_results d y s (Some v) e c df
  = Mcp.filter_results d y s (Some v') e c df.
Proof.
  intros H.
  pose proof (caseless_empty v v' H) as He.
  pose proof (caseless_upper v v' H) as Hu.
  apply TextFacts.lower_eq_caseless in H.
  repeat split_and.
  - expose_stages. rewrite He. destruct (String.eqb v' ""); now rewrite ?H.
  - expose_stages. rewrite He. destruct (String.eqb v' ""); now rewrite ?H.
  - expose_stages. rewrite He. destruct (String.eqb v' ""); now rewrite ?H.
  - unfold Mcp.filter_results, Mcp.by_degree_type, Mcp.given.
    rewrite He. destruct (String.eqb v' ""); now rewrite ?H.
  - unfold Mcp.filter_results, Mcp.by_regulation, Mcp.given.
    rewrite He. destruct (String.eqb v' ""); now rewrite ?Hu.
Qed.

Lemma value_case_witness :
  Text.caseless_eq "r18" "R18" /\
  Mcp.filter_results None None None (Some "r18") None None sample_data
  = Mcp.filter_results None None None (Some "R18") None None sample_data.
Proof.
  assert (H : Text.caseless_eq "r18" "R18").
  { apply TextFacts.lower_eq_caseless. reflexivity. }
  split; [exact H|].
  destruct (value_case_is_ignored sample_data ∅ None None None None None None
              "r18" "R18" H) as (_ & _ & _ & _ & Hreg).
  exact Hreg.
Defined.

(** A degree category that app.py does not know (anything but "BTech",
    "B.Pharmacy", "MTech", "M.Pharmacy", so also "btech") and an exam
    type that neither entry point knows (anything but "Regular" and
    "Supplementary") impose no constraint: the answer is the one of the
    criteria without them, not the empty answer. *)
Theorem unknown_category_filters_nothing
    (df : list Row) (filters : gmap string string)
    (d y s g c : option string) (v v' : string) :
  v <> "BTech" -> v <> "B.Pharmacy" -> v <> "MTech" -> v <> "M.Pharmacy" ->
  v' <> "Regular" -> v' <> "Supplementary" ->
  App.filter_results (<["degree_type" := v]> filters) df
  = App.filter_results (delete "degree_type" filters) df /\
  App.filter_results (<["exam_type" := v']> filters) df
  = App.filter_results (delete "exam_type" filters) df /\
  Mcp.filter_results d y s g (Some v') c df
  = Mcp.filter_results d y s g None c df.
Proof.
  intros H1 H2 H3 H4 H5 H6.
  apply String.eqb_neq in H1, H2, H3, H4, H5, H6.
  repeat split_and.
  - expose_stages. destruct (String.eqb v ""); [reflexivity|].
    now rewrite H1, H2, H3, H4.
  - expose_stages. destruct (String.eqb v' ""); [reflexivity|].
    now rewrite H5, H6.
  - unfold Mcp.filter_results, Mcp.by_exam_type, Mcp.given.
    destruct (String.eqb v' ""); [reflexivity|]. now rewrite H5, H6.
Qed.

Lemma unknown_category_witness :
  "btech" <> "BTech" /\ "btech" <> "B.Pharmacy" /\ "btech" <> "MTech" /\
  "btech" <> "M.Pharmacy" /\ "regular" <> "Regular" /\
  "regular" <> "Supplementary" /\
  App.filter_results (<["degree_type" := "btech"]> ∅) sample_data
  = sample_data.
Proof.
  assert (H1 : "btech" <> "BTech") by discriminate.
  assert (H2 : "btech" <> "B.Pharmacy") by discriminate.
  assert (H3 : "btech" <> "MTech") by discriminate.
  assert (H4 : "btech" <> "M.Pharmacy") by discriminate.
  assert (H5 : "regular" <> "Regular") by discriminate.
  assert (H6 : "regular" <> "Supplementary") by discriminate.
  split; [exact H1|]. split; [exact H2|]. split; [exact H3|].
  split; [exact H4|]. split; [exact H5|]. split; [exact H6|].
  exact (proj1 (unknown_category_filters_nothing sample_data ∅
                  None None None None None "btech" "regular"
                  H1 H2 H3 H4 H5 H6)).
Defined.

Lemma regular_has_no_supplementary t :
  Text.caseless_eq t "regular" -> ~ occurs_nocase "supplementary" t.
Proof.
  intros H Ho. apply TextFacts.lower_eq_caseless in H.
  unfold occurs_nocase in Ho. rewrite H in Ho.
  apply TextFacts.contains_spec in Ho. discriminate Ho.
Qed.

(** No row is in both the answer to the exam type "Regular" and the
    answer to the exam type "Supplementary", whatever the other criteria
    and the catalogs, in either entry point. *)
Theorem regular_and_supplementary_are_disjoint
    (df df' : list Row) (filters filters' : gmap string string)
    (d y s g c d' y' s' g' c' : option string) (r : Row) :
  (In r (App.filter_results (<["exam_type" := "Regular"]> filters) df) ->
   ~ In r (App.filter_results
             (<["exam_type" := "Supplementary"]> filters') df')) /\
  (In r (Mcp.filter_results d y s g (Some "Regular") c df) ->
   ~ In r (Mcp.filter_results d' y' s' g' (Some "Supplementary") c' df')).
Proof.
  split.
  - rewrite !(facet_In "exam_type") by (simpl; tauto).
    rewrite app_regular, app_supplementary.
    intros (_ & t & Ht & Hreg) (_ & t' & Ht' & Hsup).
    rewrite Ht in Ht'. injection Ht' as <-.
    now apply (regular_has_no_supplementary t).
  - rewrite !mcp_exam_type_In, mcp_regular, mcp_supplementary.
    intros (_ & Ht) (_ & t' & Ht' & Hsup).
    rewrite Ht in Ht'. injection Ht' as <-.
    apply (regular_has_no_supplementary "Regular"); [|exact Hsup].
    apply TextFacts.lower_eq_caseless. reflexivity.
Qed.

End CriteriaValues.
